(** * Pipeline risk predictor: a shallow embedding of [risk_predictor.py]

    The development follows [src/ai-model/risk_predictor.py]:
    the class [PipelineRiskPredictor] becomes a record [predictor] threaded
    through a state-and-exception monad, a pandas [DataFrame] becomes a finite
    map from column names to columns, and a request dictionary becomes a
    finite map from attribute names to dynamically typed values.

    Conventions.
    - Python floats are idealised as real numbers ([R]).  [VNull] is the
      missing value: [None] in a request dictionary, and also NaN and NaT in
      the cells of a frame.
    - pandas and scikit-learn are external libraries.  Their operations are
      the fields of the interfaces [Pandas] and [Sklearn]; every theorem holds
      for all implementations of these interfaces.  What the source itself
      decides (guards, column assignments, the order of effects, the label
      encoder's lookup, the ensemble arithmetic, the rule ladders) is written
      out.
    - A Python exception is a value of [exn]; a method of the class is a
      function [predictor -> predictor * result A], so that the mutations made
      before an exception is raised stay visible, as they do on [self]. *)

From Stdlib Require Import Reals Lra List ZArith.
From stdpp Require Import base option gmap strings list.

(** ** Values, frames and exceptions *)

Inductive value :=
| VNum (x : R)        (* int, float, Decimal *)
| VStr (s : string)   (* str *)
| VDate (t : Z)       (* date, datetime, Timestamp: nanoseconds since the epoch *)
| VNull.              (* None; in a frame also NaN and NaT *)

(** A [DataFrame] maps a column name to its cells; a request dictionary maps
    an attribute name to its value. *)
Abbreviation DataFrame := (gmap string (list value)).
Abbreviation Dict := (gmap string value).
Abbreviation matrix := (list (list R)).

Inductive exn :=
| ValueError (msg : string)
| TypeError
| IndexError
| KeyError (key : string)
| LibraryError (msg : string).

(** The error kinds of the specification, as the source raises them. *)
Definition ModelNotTrained : exn :=
  ValueError "Model must be trained before making predictions".
Definition NoTargetVariable : exn :=
  ValueError "No target variable found in training data".
Definition NoUsableFeatures : exn :=
  ValueError "No valid features found in the data".

Inductive result (A : Type) :=
| Ok (a : A)
| Raise (e : exn).
Arguments Ok {A} a.
Arguments Raise {A} e.

#[export] Instance result_ret : MRet result := @Ok.
#[export] Instance result_bind : MBind result := fun A B f r =>
  match r with
  | Ok a => f a
  | Raise e => Raise e
  end.

(** ** Decidable comparisons on reals *)

#[export] Instance Rlt_decision : RelDecision Rlt := Rlt_dec.
#[export] Instance Rle_decision : RelDecision Rle := Rle_dec.
#[export] Instance Req_decision : EqDecision R := Req_dec_T.

(** ** Numeric helpers (numpy) *)

Section Numpy.
Local Open Scope R_scope.

(** [np.clip(x, lo, hi)] is [minimum(maximum(x, lo), hi)]. *)
Definition np_clip (x lo hi : R) : R := Rmin (Rmax x lo) hi.

Definition np_mean (l : list R) : R := fold_right Rplus 0 l / INR (length l).

(** [np.std] with its default [ddof=0]: the root of the mean squared
    deviation from the mean. *)
Definition np_std (l : list R) : R :=
  sqrt (np_mean (map (fun x => Rsqr (x - np_mean l)) l)).

(** Python's [max(a, b)] on two floats. *)
Definition py_max (a b : R) : R := if decide (a < b) then b else a.
End Numpy.

(** ** The external libraries *)

(** What the source asks of pandas.  A [Raise] is an exception raised inside
    the library call. *)
Class Pandas := {
  (** [pd.to_datetime] on a cell that is not already a timestamp; [None] is NaT *)
  parse_datetime : value -> result (option Z);
  (** [now - converted] followed by [.dt.days], where [converted] is the
      column that [pd.to_datetime] made of the given cells, with the given
      instants: pandas raises when that column is time-zone-aware (now is
      naive) or when a difference leaves the range of a Timedelta; when it
      returns, the days are the whole days between the two instants *)
  subtract_from_now : Z -> list value -> list (option Z) -> result unit;
  (** [str(v)] for a cell that is not a string *)
  str_of : value -> string;
  (** [series.astype(float).values] *)
  astype_float : list value -> result (list value);
  (** [a / b] and [a * b] on two columns *)
  series_div : list value -> list value -> result (list value);
  series_mul : list value -> list value -> result (list value);
  (** [frame.mean(axis=1)], [frame.max(axis=1)], [frame.abs().mean(axis=1)] *)
  frame_mean : list (list value) -> result (list value);
  frame_max : list (list value) -> result (list value);
  frame_abs_mean : list (list value) -> result (list value);
  (** [(s - s.mean()) / s.std()] *)
  series_zscore : list value -> result (list value);
  (** [frame[cols].fillna(frame[cols].median())] as a numeric matrix *)
  select_fillna_median : list string -> DataFrame -> result matrix;
}.

(** The wall clock: [pd.to_datetime('now')] in nanoseconds, [datetime.now()]
    in days, and the ISO rendering of the calendar date of an instant. *)
Class Clock := {
  pd_now : Z;
  datetime_now : R;
  date_isoformat : R -> string;
}.

(** What the source asks of scikit-learn. *)
Class Sklearn := {
  Scaler : Type;
  Model : Type;
  Scores : Type;
  (** [scaler.transform(X)] reads the scaler *)
  scaler_transform : Scaler -> matrix -> result matrix;
  (** [scaler.fit_transform(X)] refits the scaler in place *)
  scaler_fit_transform : Scaler -> matrix -> Scaler * result matrix;
  (** [model.predict(X)]: one entry per row of [X] *)
  model_predict : Model -> matrix -> result (list R);
  (** [train_test_split(X, y, test_size=0.2, random_state=42, stratify=...)] *)
  train_test_split :
    matrix -> list value -> result (matrix * matrix * list value * list value);
  (** [model.fit] on the training split, in place, then the evaluation of the
      fitted model: its scores and its [feature_importances_] *)
  fit_and_score :
    Model -> matrix * matrix * list value * list value ->
    Model * result (Scores * list R);
}.

(** ** The predictor object *)

(** The attributes of [PipelineRiskPredictor] that change at run time.  A
    fitted [LabelEncoder] is its [classes_] array. *)
Record predictor `{Sklearn} := {
  random_forest : Model;
  gradient_boosting : Model;
  scaler : Scaler;
  label_encoders : gmap string (list string);
  feature_importance : gmap string (list (string * R));
  is_trained : bool;
}.

Definition numerical_features : list string :=
  ["age_years"; "diameter"; "pressure_rating"; "length_km";
   "depth_avg"; "temperature_avg"; "corrosion_rate";
   "soil_resistivity"; "cathodic_protection_level";
   "wall_thickness"; "operating_pressure"].

Definition categorical_features : list string :=
  ["material"; "coating_type"; "environment_type";
   "soil_type"; "installation_method"].

Definition risk_factors : list string :=
  ["corrosion_severity"; "depth_variation"; "pressure_fluctuation";
   "temperature_variation"; "external_damage_risk"].

(** Membership of a name in [df.columns]. *)
Definition has_column (df : DataFrame) (c : string) : bool :=
  bool_decide (is_Some (df !! c)).

(** [frame[c]], a [KeyError] when the column is missing. *)
Definition column (d : DataFrame) (c : string) : result (list value) :=
  match d !! c with
  | Some s => Ok s
  | None => Raise (KeyError c)
  end.

(** ** Inference arithmetic and post-processing rules *)

Section PostProcessing.
Context `{Clock}.
Local Open Scope R_scope.

(** Lines 278-283 of [predict], on the arrays of the two regressors, which
    both hold one entry per row of the batch. *)
Definition ensemble_pred (rf gb : list R) : list R :=
  zip_with (fun a b => a * 0.6 + b * 0.4) rf gb.

Definition pred_std (rf gb : list R) : list R :=
  zip_with (fun a b => np_std [a; b]) rf gb.

Definition confidence (rf gb : list R) : list R :=
  map (fun s => np_clip (1 - s * 2) 0.1 1.0) (pred_std rf gb).

Definition _get_risk_level (failure_prob : R) : string :=
  if decide (0.7 <= failure_prob) then "critical"
  else if decide (0.5 <= failure_prob) then "high"
  else if decide (0.3 <= failure_prob) then "medium"
  else "low".

(** [v > c] for a value [v] of the request dictionary and a number [c]:
    Python compares numbers and raises [TypeError] on [None], a string or a
    date. *)
Definition gt (v : value) (c : R) : result bool :=
  match v with
  | VNum x => Ok (bool_decide (c < x))
  | _ => Raise TypeError
  end.

(** [pipeline_data.get(key, 0)] *)
Definition get_or_zero (pipeline_data : Dict) (key : string) : value :=
  default (VNum 0) (pipeline_data !! key).

Definition _generate_recommendations (failure_prob : R) (pipeline_data : Dict)
  : result (list string) :=
  let recommendations :=
    if decide (0.8 < failure_prob) then
      ["URGENT: Schedule immediate inspection";
       "Consider pipeline replacement or major repair";
       "Increase monitoring frequency to weekly";
       "Implement emergency response procedures"]
    else if decide (0.6 < failure_prob) then
      ["Schedule comprehensive inspection within 30 days";
       "Increase cathodic protection monitoring";
       "Consider targeted repairs for high-risk sections";
       "Review operating pressure limits"]
    else if decide (0.4 < failure_prob) then
      ["Schedule routine inspection within 90 days";
       "Monitor corrosion indicators closely";
       "Review maintenance schedule";
       "Consider preventive maintenance"]
    else
      ["Continue standard monitoring schedule";
       "Annual comprehensive inspection recommended";
       "Maintain current operating procedures"] in
  old ← gt (get_or_zero pipeline_data "age_years") 30;
  let recommendations :=
    if old : bool then recommendations ++ ["Consider age-related integrity assessment"]
    else recommendations in
  corroding ← gt (get_or_zero pipeline_data "corrosion_rate") 0.1;
  Ok (if corroding : bool
      then recommendations ++ ["Implement enhanced corrosion monitoring"]
      else recommendations).

(** The horizon in years of [_estimate_failure_date], once both factors are
    known. *)
Definition estimated_years (failure_prob : R) (old corroding : bool) : R :=
  let base_years := py_max 0.5 ((1 - failure_prob) * 10) in
  let age_factor := if old then 0.8 else 1.0 in
  let corrosion_factor := if corroding then 0.7 else 1.0 in
  base_years * age_factor * corrosion_factor.

(** [datetime.now() + timedelta(days=estimated_years * 365)], then the ISO
    form of its calendar date. *)
Definition _estimate_failure_date (failure_prob : R) (pipeline_data : Dict)
  : result (option string) :=
  if decide (failure_prob < 0.3) then Ok None
  else
    old ← gt (get_or_zero pipeline_data "age_years") 25;
    corroding ← gt (get_or_zero pipeline_data "corrosion_rate") 0.1;
    Ok (Some (date_isoformat
                (datetime_now + estimated_years failure_prob old corroding * 365))).

End PostProcessing.

(** ** [sklearn.preprocessing.LabelEncoder] on strings *)

Module LabelEncoder.

(** [np.unique]: the distinct labels in increasing order. *)
Fixpoint insert_unique (x : string) (l : list string) : list string :=
  match l with
  | [] => [x]
  | y :: l' =>
      match String.compare x y with
      | Lt => x :: l
      | Eq => l
      | Gt => y :: insert_unique x l'
      end
  end.

Definition fit (y : list string) : list string := foldr insert_unique [] y.

(** The code of a label is its position in [classes_]. *)
Fixpoint index_of (x : string) (classes : list string) : option nat :=
  match classes with
  | [] => None
  | c :: rest => if decide (x = c) then Some 0 else S <$> index_of x rest
  end.

Definition unseen : exn := ValueError "y contains previously unseen labels".

Definition encode1 (classes : list string) (x : string) : result nat :=
  match index_of x classes with
  | Some i => Ok i
  | None => Raise unseen
  end.

Definition transform (classes y : list string) : result (list nat) :=
  mapM (encode1 classes) y.

End LabelEncoder.

(** [series.astype(str)] on one cell. *)
Definition astype_str `{Pandas} (v : value) : string :=
  match v with
  | VStr s => s
  | _ => str_of v
  end.

(** The integer codes written back into the frame. *)
Definition codes (c : list nat) : list value := map (fun i => VNum (INR i)) c.

(** Lines 158-168 of [prepare_data]: encoding a column with an encoder that
    is already fitted.  [classes_[0]] on an encoder without classes is an
    [IndexError]. *)
Definition encode_frozen (classes strs : list string) : result (list nat) :=
  match LabelEncoder.transform classes strs with
  | Ok c => Ok c
  | Raise (ValueError _) =>
      match classes with
      | [] => Raise IndexError
      | most_common :: _ =>
          LabelEncoder.transform classes
            (map (fun x => if decide (x ∈ classes) then x else most_common) strs)
      end
  | Raise e => Raise e
  end.

(** ** Methods: state and exceptions *)

Section Methods.
Context `{Pandas, Clock, Sklearn}.

Definition M (A : Type) : Type := predictor -> predictor * result A.

#[export] Instance M_ret : MRet M := fun A a st => (st, Ok a).
#[export] Instance M_bind : MBind M := fun A B f m st =>
  match m st with
  | (st', Ok a) => f a st'
  | (st', Raise e) => (st', Raise e)
  end.

Definition raise {A} (e : exn) : M A := fun st => (st, Raise e).
Definition get_self : M predictor := fun st => (st, Ok st).
Definition lift {A} (r : result A) : M A := fun st => (st, r).

Definition set_label_encoder (feature : string) (classes : list string) : M unit :=
  fun st =>
    ({| random_forest := random_forest st;
        gradient_boosting := gradient_boosting st;
        scaler := scaler st;
        label_encoders := <[feature := classes]> (label_encoders st);
        feature_importance := feature_importance st;
        is_trained := is_trained st |}, Ok tt).

Definition set_scaler (s : Scaler) : M unit :=
  fun st =>
    ({| random_forest := random_forest st;
        gradient_boosting := gradient_boosting st;
        scaler := s;
        label_encoders := label_encoders st;
        feature_importance := feature_importance st;
        is_trained := is_trained st |}, Ok tt).

Definition set_random_forest (m : Model) : M unit :=
  fun st =>
    ({| random_forest := m;
        gradient_boosting := gradient_boosting st;
        scaler := scaler st;
        label_encoders := label_encoders st;
        feature_importance := feature_importance st;
        is_trained := is_trained st |}, Ok tt).

Definition set_gradient_boosting (m : Model) : M unit :=
  fun st =>
    ({| random_forest := random_forest st;
        gradient_boosting := m;
        scaler := scaler st;
        label_encoders := label_encoders st;
        feature_importance := feature_importance st;
        is_trained := is_trained st |}, Ok tt).

Definition set_feature_importance (name : string) (imp : list (string * R)) : M unit :=
  fun st =>
    ({| random_forest := random_forest st;
        gradient_boosting := gradient_boosting st;
        scaler := scaler st;
        label_encoders := label_encoders st;
        feature_importance := <[name := imp]> (feature_importance st);
        is_trained := is_trained st |}, Ok tt).

Definition set_is_trained (b : bool) : M unit :=
  fun st =>
    ({| random_forest := random_forest st;
        gradient_boosting := gradient_boosting st;
        scaler := scaler st;
        label_encoders := label_encoders st;
        feature_importance := feature_importance st;
        is_trained := b |}, Ok tt).

(** *** [engineer_features] *)

(** [pd.to_datetime] on one cell. *)
Definition to_datetime (v : value) : result (option Z) :=
  match v with
  | VDate t => Ok (Some t)
  | VNull => Ok None
  | _ => parse_datetime v
  end.

Definition ns_per_day : Z := 86400000000000.

(** [(now - t).days / 365.25]: whole days (floor), then a float division;
    NaT gives NaN. *)
Definition age_of (now : Z) (t : option Z) : value :=
  match t with
  | Some t => VNum (IZR ((now - t) / ns_per_day) / 365.25)%R
  | None => VNull
  end.

(** One assignment [df_engineered[c] = ...] under its guard.  The guards of
    the source read the columns of the input [df]; the right-hand sides
    read [df_engineered], named [d] here. *)
Definition step : Type := DataFrame -> result DataFrame.

Definition age_step (df : DataFrame) : step := fun d =>
  match df !! "installation_date" with
  | Some dates =>
      ts ← mapM to_datetime dates;
      _ ← subtract_from_now pd_now dates ts;
      Ok (<["age_years" := map (age_of pd_now) ts]> d)
  | None => Ok d
  end.

Definition pressure_ratio_step (df : DataFrame) : step := fun d =>
  if has_column df "operating_pressure" && has_column df "pressure_rating" then
    a ← column d "operating_pressure";
    b ← column d "pressure_rating";
    r ← series_div a b;
    Ok (<["pressure_ratio" := r]> d)
  else Ok d.

Definition wall_thickness_ratio_step (df : DataFrame) : step := fun d =>
  if has_column df "current_wall_thickness"
     && has_column df "original_wall_thickness" then
    a ← column d "current_wall_thickness";
    b ← column d "original_wall_thickness";
    r ← series_div a b;
    Ok (<["wall_thickness_ratio" := r]> d)
  else Ok d.

Definition corrosion_acceleration_step (df : DataFrame) : step := fun d =>
  if has_column df "corrosion_rate" && has_column d "age_years" then
    a ← column d "corrosion_rate";
    b ← column d "age_years";
    r ← series_mul a b;
    Ok (<["corrosion_acceleration" := r]> d)
  else Ok d.

Definition all_risk_factors (df : DataFrame) : bool :=
  forallb (has_column df) risk_factors.

Definition composite_risk_score_step (df : DataFrame) : step := fun d =>
  if all_risk_factors df then
    cols ← mapM (column d) risk_factors;
    r ← frame_mean cols;
    Ok (<["composite_risk_score" := r]> d)
  else Ok d.

Definition max_risk_factor_step (df : DataFrame) : step := fun d =>
  if all_risk_factors df then
    cols ← mapM (column d) risk_factors;
    r ← frame_max cols;
    Ok (<["max_risk_factor" := r]> d)
  else Ok d.

Definition environmental_factors : list string :=
  ["temperature_avg"; "soil_resistivity"; "depth_avg"].

Definition normalized (factor : string) : string := factor +:+ "_normalized".

Definition normalize_step (factor : string) : step := fun d =>
  s ← column d factor;
  r ← series_zscore s;
  Ok (<[normalized factor := r]> d).

Definition environmental_stress_step (available : list string) : step := fun d =>
  cols ← mapM (column d) (map normalized available);
  r ← frame_abs_mean cols;
  Ok (<["environmental_stress" := r]> d).

Definition environmental_steps (df : DataFrame) : list step :=
  let available_env_factors := filter (fun f => has_column df f = true) environmental_factors in
  match available_env_factors with
  | [] => []
  | _ => map normalize_step available_env_factors
         ++ [environmental_stress_step available_env_factors]
  end.

(** The body of the [try] block: assignments run in order; the first
    exception ends the block and the frame built so far is returned. *)
Fixpoint run_steps (steps : list step) (d : DataFrame) : DataFrame :=
  match steps with
  | [] => d
  | s :: rest =>
      match s d with
      | Ok d' => run_steps rest d'
      | Raise _ => d
      end
  end.

(** The assignments that follow the one of [age_years]. *)
Definition later_steps (df : DataFrame) : list step :=
  [pressure_ratio_step df; wall_thickness_ratio_step df;
   corrosion_acceleration_step df; composite_risk_score_step df;
   max_risk_factor_step df] ++ environmental_steps df.

Definition engineer_features (df : DataFrame) : DataFrame :=
  run_steps (age_step df :: later_steps df) df.

(** *** [prepare_data] *)

(** One turn of the loop over [categorical_features]. *)
Definition encode_feature (feature : string) (d : DataFrame) : M DataFrame :=
  match d !! feature with
  | None => mret d
  | Some col =>
      self ← get_self;
      let strs := map astype_str col in
      match label_encoders self !! feature with
      | None =>
          let classes := LabelEncoder.fit strs in
          _ ← set_label_encoder feature classes;
          c ← lift (LabelEncoder.transform classes strs);
          mret (<[feature := codes c]> d)
      | Some classes =>
          c ← lift (encode_frozen classes strs);
          mret (<[feature := codes c]> d)
      end
  end.

Fixpoint encode_features (features : list string) (d : DataFrame) : M DataFrame :=
  match features with
  | [] => mret d
  | feature :: rest =>
      d' ← encode_feature feature d;
      encode_features rest d'
  end.

Definition available_features (d : DataFrame) : list string :=
  List.filter (has_column d) (numerical_features ++ categorical_features).

(** [self.scaler.fit_transform(X)]: the scaler is refitted in place, also
    when the call raises. *)
Definition fit_scaler (X : matrix) : M matrix := fun st =>
  let '(s, r) := scaler_fit_transform (scaler st) X in
  let '(st', _) := set_scaler s st in
  (st', r).

(** Lines 185-191: the target column, if any. *)
Definition target (d : DataFrame) : result (option (list value)) :=
  match d !! "failure_probability" with
  | Some y => Ok (Some y)
  | None =>
      match d !! "incident_occurred" with
      | Some c => y ← astype_float c; Ok (Some y)
      | None => Ok None
      end
  end.

Definition prepare_data (df : DataFrame) : M (matrix * option (list value)) :=
  df_prepared ← encode_features categorical_features (engineer_features df);
  match available_features df_prepared with
  | [] => raise NoUsableFeatures
  | features =>
      X ← lift (select_fillna_median features df_prepared);
      self ← get_self;
      X_scaled ← (if is_trained self
                  then lift (scaler_transform (scaler self) X)
                  else fit_scaler X);
      y ← lift (target df_prepared);
      mret (X_scaled, y)
  end.

(** *** [train] *)

(** One turn of the loop over [self.models]: fit in place, evaluate, record
    the importances under the names of the feature columns of [df]. *)
Definition fit_random_forest
    (split : matrix * matrix * list value * list value) (names : list string)
  : M Scores :=
  self ← get_self;
  let '(model, r) := fit_and_score (random_forest self) split in
  _ ← set_random_forest model;
  '(scores, importances) ← lift r;
  _ ← set_feature_importance "random_forest" (zip names importances);
  mret scores.

Definition fit_gradient_boosting
    (split : matrix * matrix * list value * list value) (names : list string)
  : M Scores :=
  self ← get_self;
  let '(model, r) := fit_and_score (gradient_boosting self) split in
  _ ← set_gradient_boosting model;
  '(scores, importances) ← lift r;
  _ ← set_feature_importance "gradient_boosting" (zip names importances);
  mret scores.

Definition train (df : DataFrame) : M (Scores * Scores) :=
  '(X, y) ← prepare_data df;
  match y with
  | None => raise NoTargetVariable
  | Some y =>
      split ← lift (train_test_split X y);
      rf_scores ← fit_random_forest split (available_features df);
      gb_scores ← fit_gradient_boosting split (available_features df);
      _ ← set_is_trained true;
      mret (rf_scores, gb_scores)
  end.

(** *** [predict] and [predict_single_pipeline] *)

(** The result dictionaries, without their time stamps. *)
Record prediction := {
  failure_probability : list R;
  confidence_score : option (list R);
  individual_predictions : list R * list R;
  model_version : string;
}.

Record pipeline_prediction := {
  pipeline_id : option value;
  failure_prob : R;
  confidence_value : R;
  predicted_failure_date : option string;
  risk_level : string;
  recommendations : list string;
  input_parameters : Dict;
  prediction_model : string;
}.

Definition predict (df : DataFrame) (return_confidence : bool) : M prediction :=
  self ← get_self;
  if negb (is_trained self) then raise ModelNotTrained
  else
    '(X, _) ← prepare_data df;
    self ← get_self;
    rf ← lift (model_predict (random_forest self) X);
    gb ← lift (model_predict (gradient_boosting self) X);
    mret {| failure_probability := ensemble_pred rf gb;
            confidence_score :=
              if return_confidence then Some (confidence rf gb) else None;
            individual_predictions := (rf, gb);
            model_version := "1.0" |}.

(** [l[0]] *)
Definition first {A} (l : list A) : result A :=
  match l with
  | x :: _ => Ok x
  | [] => Raise IndexError
  end.

Definition predict_single_pipeline (pipeline_data : Dict) : M pipeline_prediction :=
  (* pd.DataFrame([pipeline_data]): one row, one column per key *)
  let df : DataFrame := (fun v => [v]) <$> pipeline_data in
  prediction ← predict df true;
  p ← lift (first (failure_probability prediction));
  c ← lift (match confidence_score prediction with
            | Some (c :: _) => Ok c
            | _ => Ok 0.8%R
            end);
  recs ← lift (_generate_recommendations p pipeline_data);
  date ← lift (_estimate_failure_date p pipeline_data);
  mret {| pipeline_id := pipeline_data !! "id";
          failure_prob := p;
          confidence_value := c;
          predicted_failure_date := date;
          risk_level := _get_risk_level p;
          recommendations := recs;
          input_parameters := pipeline_data;
          prediction_model := "ensemble_v1.0" |}.

End Methods.

(** ** Stand-ins for the external libraries

    Small implementations of [Pandas], [Clock] and [Sklearn], on which the
    methods can be run: constant regressors, a scaler that remembers the
    number of columns it was fitted on, no date parsing, dates without time
    zone. *)

Module Demo.

Definition cell_number (v : value) : R :=
  match v with
  | VNum x => x
  | _ => 0%R
  end.

(** The selected columns, row by row; missing cells read as zero. *)
Definition select_rows (cols : list string) (d : DataFrame) : matrix :=
  match cols with
  | [] => []
  | c :: _ =>
      imap (fun i _ =>
              map (fun c' => cell_number (default VNull (default [] (d !! c') !! i))) cols)
           (default [] (d !! c))
  end.

#[export] Instance pandas : Pandas := {|
  parse_datetime _ := Raise (ValueError "unknown datetime string format");
  subtract_from_now _ _ _ := Ok tt;
  str_of _ := "nan";
  astype_float y := Ok y;
  series_div a _ := Ok a;
  series_mul a _ := Ok a;
  frame_mean cols := Ok (default [] (head cols));
  frame_max cols := Ok (default [] (head cols));
  frame_abs_mean cols := Ok (default [] (head cols));
  series_zscore s := Ok s;
  select_fillna_median cols d := Ok (select_rows cols d);
|}.

#[export] Instance clock : Clock := {|
  pd_now := 366 * ns_per_day;
  datetime_now := 0%R;
  date_isoformat _ := "1970-01-01";
|}.

Definition same_width (n : nat) (X : matrix) : bool :=
  forallb (fun row => Nat.eqb (length row) n) X.

#[export] Instance sklearn : Sklearn := {|
  Scaler := option nat;
  Model := R;
  Scores := unit;
  scaler_transform s X :=
    match s with
    | Some n =>
        if same_width n X then Ok X
        else Raise (ValueError "X has a different number of features")
    | None => Raise (LibraryError "NotFittedError")
    end;
  scaler_fit_transform _ X :=
    match X with
    | [] => (None, Raise (ValueError "Found array with 0 sample(s)"))
    | row :: _ => (Some (length row), Ok X)
    end;
  model_predict m X := Ok (map (fun _ => m) X);
  train_test_split X y := Ok (X, X, y, y);
  fit_and_score m _ := (m, Ok (tt, []));
|}.

(** A fresh predictor whose two regressors answer [rf] and [gb]. *)
Definition fresh (rf gb : R) : predictor := {|
  random_forest := rf;
  gradient_boosting := gb;
  scaler := None;
  label_encoders := ∅;
  feature_importance := ∅;
  is_trained := false;
|}.

(** A labelled one-row batch without categorical columns. *)
Definition training_batch : DataFrame :=
  {[ "age_years" := [VNum 25]; "failure_probability" := [VNum 0.5] ]}.

Definition trained (rf gb : R) : predictor := (train training_batch (fresh rf gb)).1.

(** A labelled two-row batch with one categorical column, and the predictor
    trained on it: its encoder of [material] knows two classes. *)
Definition material_batch : DataFrame :=
  {[ "age_years" := [VNum 25; VNum 30];
     "material" := [VStr "HDPE"; VStr "Carbon Steel"];
     "failure_probability" := [VNum 0.5; VNum 0.6] ]}.

Definition trained_on_materials : predictor :=
  (train material_batch (fresh 0.5 0.3)).1.

(** Inference frames: a material that no training row had, and a batch
    that brings a categorical column to a predictor trained without it. *)
Definition titanium_frame : DataFrame := {[ "material" := [VStr "Titanium"] ]}.

Definition hdpe_batch : DataFrame :=
  {[ "age_years" := [VNum 25]; "material" := [VStr "HDPE"] ]}.

(** A labelled batch without rows, and the predictor that the failed
    training call on it leaves behind. *)
Definition zero_row_batch : DataFrame :=
  {[ "age_years" := []; "material" := []; "failure_probability" := [] ]}.

Definition trained_on_no_rows : predictor :=
  (train zero_row_batch (fresh 0.5 0.3)).1.

(** Training batches without a target column: with and without a declared
    feature column. *)
Definition unlabelled_batch : DataFrame := {[ "age_years" := [VNum 25] ]}.
Definition id_only_batch : DataFrame := {[ "id" := [VNum 1] ]}.

(** A batch that supplies both an installation date (the epoch) and an age. *)
Definition dated_batch : DataFrame :=
  {[ "installation_date" := [VDate 0]; "age_years" := [VNum 5] ]}.

(** A request dictionary with numeric attributes. *)
Definition old_corroding_pipeline : Dict :=
  {[ "age_years" := VNum 31; "corrosion_rate" := VNum 0.15 ]}.

(** Requests for single-asset inference: one that matches the columns of
    [training_batch], and one whose age is null. *)
Definition aged_pipeline : Dict := {[ "age_years" := VNum 31; "id" := VNum 7 ]}.
Definition null_age_pipeline : Dict := {[ "age_years" := VNull ]}.

End Demo.

(** ** Persistence and the remaining accessors *)

Section Persistence.
Context `{Sklearn}.

(** The dictionary that [save_model] dumps and [load_model] reads back. *)
Record model_data := {
  md_models : Model * Model;
  md_scaler : Scaler;
  md_label_encoders : gmap string (list string);
  md_feature_importance : gmap string (list (string * R));
  md_is_trained : bool;
}.

(** The built-in [FileNotFoundError] with its message. *)
Definition FileNotFoundError (msg : string) : exn :=
  LibraryError ("FileNotFoundError: " +:+ msg).

Definition ArtifactNotTrained : exn :=
  ValueError "Model must be trained before saving".

Definition ImportanceNotTrained : exn :=
  ValueError "Model must be trained to get feature importance".

(** [save_model]: the files are a map from paths to dumped dictionaries;
    [joblib.dump] is a write that succeeds. *)
Definition save_model (filepath : string) (self : predictor)
    (files : gmap string model_data) : gmap string model_data * result unit :=
  if negb (is_trained self) then (files, Raise ArtifactNotTrained)
  else
    let model_data :=
      {| md_models := (random_forest self, gradient_boosting self);
         md_scaler := scaler self;
         md_label_encoders := label_encoders self;
         md_feature_importance := feature_importance self;
         md_is_trained := is_trained self |} in
    (<[filepath := model_data]> files, Ok tt).

(** [load_model]: [os.path.exists] is the presence of the path;
    [joblib.load] returns what was dumped there. *)
Definition load_model (filepath : string) (files : gmap string model_data)
    (self : predictor) : predictor * result unit :=
  match files !! filepath with
  | None => (self, Raise (FileNotFoundError ("Model file not found: " +:+ filepath)))
  | Some model_data =>
      ({| random_forest := (md_models model_data).1;
          gradient_boosting := (md_models model_data).2;
          scaler := md_scaler model_data;
          label_encoders := md_label_encoders model_data;
          feature_importance := md_feature_importance model_data;
          is_trained := md_is_trained model_data |}, Ok tt)
  end.

Definition get_feature_importance (self : predictor)
  : result (gmap string (list (string * R))) :=
  if negb (is_trained self) then Raise ImportanceNotTrained
  else Ok (feature_importance self).

End Persistence.

(** ** The API server ([api_server.py])

    The module keeps two globals, [predictor] and [model_loaded]; together
    with the files written by [save_model] they are the state [server].
    What a handler gets from outside is an argument: the parsed request body,
    and the rows that [fetch_pipeline_data] returned ([None] when the
    database could not be reached or the query failed).  A handler returns
    the new state and the response; the time stamps of the responses are
    left out.  A request body is any JSON value. *)

(** The estimators that [__init__] constructs, before any fit. *)
Class Estimators `{Sklearn} := {
  RandomForestRegressor : Model;
  GradientBoostingRegressor : Model;
  StandardScaler : Scaler;
}.

(** What [request.get_json()] returns. *)
#[warnings="-register-all"]
Inductive json :=
| JNull
| JBool (b : bool)
| JNumber (x : R)
| JString (s : string)
| JArray (items : list json)
| JObject (members : gmap string json).

(** [not data]: [None], [False], zero, the empty string, the empty list and
    the empty dictionary. *)
Definition falsy (data : json) : bool :=
  match data with
  | JNull => true
  | JBool b => negb b
  | JNumber x => bool_decide (x = 0%R)
  | JString s => bool_decide (s = "")
  | JArray items => bool_decide (items = [])
  | JObject members => bool_decide (members = ∅)
  end.

(** The cells of the frames of this development: null, a number or a
    string. *)
Definition cell_of_json (j : json) : option value :=
  match j with
  | JNull => Some VNull
  | JNumber x => Some (VNum x)
  | JString s => Some (VStr s)
  | _ => None
  end.

(** A JSON object all of whose members are such cells, as a dictionary. *)
Definition record_of_json (j : json) : option Dict :=
  match j with
  | JObject members =>
      if bool_decide (map_Forall (fun _ v => is_Some (cell_of_json v)) members)
      then Some (omap cell_of_json members)
      else None
  | _ => None
  end.

(** The surroundings of the server process. *)
Class Deployment := {
  (** [os.getenv('MODEL_PATH', '/app/models/pipeline_risk_model.joblib')] *)
  MODEL_PATH : string;
  (** [create_sample_data(1000)], drawn with the fixed seed *)
  create_sample_data : DataFrame;
  (** the arithmetic of [retrain_model] on the age column and the optional
      corrosion columns, clipped to [0, 1] *)
  synthetic_target :
    list value -> option (list value) -> option (list value) -> result (list value);
  (** [pd.DataFrame(items)] on a list whose items are not all objects of
      nulls, numbers and strings (scalars, booleans, nested values): pandas
      chooses the columns, or raises *)
  DataFrame_of_values : list json -> result DataFrame;
}.

(** [pd.DataFrame(rows)] for a list of dictionaries: one column per key that
    occurs, a missing cell where a row lacks the key. *)
Definition DataFrame_of_records (rows : list Dict) : DataFrame :=
  set_to_map (fun k => (k, map (fun row => default VNull (row !! k)) rows))
    (⋃ (map dom rows) : gset string).

Record batch_prediction := {
  bp_pipeline_id : value;
  bp_pipeline_name : value;
  bp_failure_probability : R;
  bp_confidence_score : R;
  bp_risk_level : string;
}.

Section Server.
Context `{Pandas, Clock, Sklearn, !Estimators, Deployment}.

(** [PipelineRiskPredictor()] *)
Definition new_predictor : predictor := {|
  random_forest := RandomForestRegressor;
  gradient_boosting := GradientBoostingRegressor;
  scaler := StandardScaler;
  label_encoders := ∅;
  feature_importance := ∅;
  is_trained := false;
|}.

Record server := {
  global_predictor : option predictor;
  model_loaded : bool;
  files : gmap string model_data;
}.

Inductive body :=
| Error (msg : string)
| Failed (what : string) (e : exn)
| PipelineNotFound (pipeline_id : Z)
| Predictions (r : prediction)
| PipelinePrediction (r : pipeline_prediction)
| BatchPredictions (l : list batch_prediction) (total_pipelines : nat)
| Retrained (training_metrics : Scores * Scores)
| ModelInfo (importance : gmap string (list (string * R))) (model_types : list string).

Record response := {
  status : nat;
  payload : body;
}.

(** A method call on the global [predictor]; on [None] it is the
    [AttributeError] of Python. *)
Definition NoneType : exn := LibraryError "AttributeError: 'NoneType' object".

(** [load_model()] of the server, run once at start-up. *)
Definition startup (s : server) : server :=
  let predictor := new_predictor in
  if bool_decide (is_Some (files s !! MODEL_PATH)) then
    let '(predictor, r) := load_model MODEL_PATH (files s) predictor in
    {| global_predictor := Some predictor;
       model_loaded := match r with Ok _ => true | Raise _ => false end;
       files := files s |}
  else
    let '(predictor, r) := train create_sample_data predictor in
    match r with
    | Raise _ =>
        {| global_predictor := Some predictor; model_loaded := false; files := files s |}
    | Ok _ =>
        let '(files', r) := save_model MODEL_PATH predictor (files s) in
        {| global_predictor := Some predictor;
           model_loaded := match r with Ok _ => true | Raise _ => false end;
           files := files' |}
    end.

(** Lines 154-157: [pd.DataFrame(data)] for a list, [pd.DataFrame([data])]
    for anything else. *)
Definition request_frame (data : json) : result DataFrame :=
  let items :=
    match data with
    | JArray items => items
    | _ => [data]
    end in
  match mapM record_of_json items with
  | Some rows => Ok (DataFrame_of_records rows)
  | None => DataFrame_of_values items
  end.

(** [POST /predict] *)
Definition predict_endpoint (request : result json) (s : server) : server * response :=
  if negb (model_loaded s) then
    (s, {| status := 503; payload := Error "Model not loaded" |})
  else
    match request with
    | Raise e => (s, {| status := 500; payload := Failed "Prediction failed" e |})
    | Ok data =>
        if falsy data then
          (s, {| status := 400; payload := Error "No data provided" |})
        else
          match request_frame data with
          | Raise e => (s, {| status := 500; payload := Failed "Prediction failed" e |})
          | Ok df =>
              match global_predictor s with
              | None =>
                  (s, {| status := 500; payload := Failed "Prediction failed" NoneType |})
              | Some predictor =>
                  let '(predictor, r) := predict df true predictor in
                  ({| global_predictor := Some predictor;
                      model_loaded := model_loaded s;
                      files := files s |},
                   match r with
                   | Ok result => {| status := 200; payload := Predictions result |}
                   | Raise e =>
                       {| status := 500; payload := Failed "Prediction failed" e |}
                   end)
              end
          end
    end.

(** [POST /predict/pipeline/<id>] *)
Definition predict_pipeline_endpoint (pipeline_id : Z) (fetched : option (list Dict))
    (s : server) : server * response :=
  if negb (model_loaded s) then
    (s, {| status := 503; payload := Error "Model not loaded" |})
  else
    match fetched with
    | None | Some [] => (s, {| status := 404; payload := PipelineNotFound pipeline_id |})
    | Some (pipeline_data :: _) =>
        match global_predictor s with
        | None =>
            (s, {| status := 500; payload := Failed "Pipeline prediction failed" NoneType |})
        | Some predictor =>
            let '(predictor, r) := predict_single_pipeline pipeline_data predictor in
            ({| global_predictor := Some predictor;
                model_loaded := model_loaded s;
                files := files s |},
             match r with
             | Ok result => {| status := 200; payload := PipelinePrediction result |}
             | Raise e =>
                 {| status := 500; payload := Failed "Pipeline prediction failed" e |}
             end)
        end
    end.

(** The target that [retrain_model] adds to the fetched frame. *)
Definition with_synthetic_target (df : DataFrame) : result DataFrame :=
  age ← column df "age_years";
  y ← synthetic_target age (df !! "corrosion_rate") (df !! "corrosion_severity");
  Ok (<["failure_probability" := y]> df).

(** [POST /retrain] *)
Definition retrain_endpoint (fetched : option (list Dict)) (s : server)
  : server * response :=
  match fetched with
  | None | Some [] =>
      (s, {| status := 400; payload := Error "No training data available" |})
  | Some pipeline_data =>
      match with_synthetic_target (DataFrame_of_records pipeline_data) with
      | Raise e => (s, {| status := 500; payload := Failed "Model retraining failed" e |})
      | Ok df =>
          let '(new_predictor, r) := train df new_predictor in
          match r with
          | Raise e =>
              (s, {| status := 500; payload := Failed "Model retraining failed" e |})
          | Ok training_metrics =>
              let '(files', r) := save_model MODEL_PATH new_predictor (files s) in
              match r with
              | Raise e =>
                  ({| global_predictor := global_predictor s;
                      model_loaded := model_loaded s;
                      files := files' |},
                   {| status := 500; payload := Failed "Model retraining failed" e |})
              | Ok _ =>
                  ({| global_predictor := Some new_predictor;
                      model_loaded := true;
                      files := files' |},
                   {| status := 200; payload := Retrained training_metrics |})
              end
          end
      end
  end.

(** [GET /model/info] *)
Definition model_info_endpoint (s : server) : server * response :=
  if negb (model_loaded s) then
    (s, {| status := 503; payload := Error "Model not loaded" |})
  else
    match global_predictor s with
    | None => (s, {| status := 500; payload := Failed "Model info request failed" NoneType |})
    | Some predictor =>
        (s, match get_feature_importance predictor with
            | Ok importance =>
                {| status := 200;
                   payload := ModelInfo importance ["random_forest"; "gradient_boosting"] |}
            | Raise e =>
                {| status := 500; payload := Failed "Model info request failed" e |}
            end)
    end.

(** [l[i]] *)
Definition item {A} (l : list A) (i : nat) : result A :=
  match l !! i with
  | Some x => Ok x
  | None => Raise IndexError
  end.

(** [d[key]] *)
Definition getitem (d : Dict) (key : string) : result value :=
  match d !! key with
  | Some v => Ok v
  | None => Raise (KeyError key)
  end.

(** One turn of the loop of [batch_predict]. *)
Definition batch_entry (results : prediction) (i : nat) (pipeline : Dict)
  : result batch_prediction :=
  id ← getitem pipeline "id";
  name ← getitem pipeline "name";
  p ← item (failure_probability results) i;
  c ← match confidence_score results with
      | Some (c0 :: cs) => item (c0 :: cs) i
      | _ => Ok 0.8%R
      end;
  p' ← item (failure_probability results) i;
  Ok {| bp_pipeline_id := id;
        bp_pipeline_name := name;
        bp_failure_probability := p;
        bp_confidence_score := c;
        bp_risk_level := _get_risk_level p' |}.

(** [POST /batch/predict] *)
Definition batch_predict_endpoint (fetched : option (list Dict)) (s : server)
  : server * response :=
  if negb (model_loaded s) then
    (s, {| status := 503; payload := Error "Model not loaded" |})
  else
    match fetched with
    | None | Some [] =>
        (s, {| status := 400; payload := Error "No pipeline data available" |})
    | Some pipeline_data =>
        match global_predictor s with
        | None =>
            (s, {| status := 500; payload := Failed "Batch prediction failed" NoneType |})
        | Some predictor =>
            let '(predictor, r) :=
              predict (DataFrame_of_records pipeline_data) true predictor in
            ({| global_predictor := Some predictor;
                model_loaded := model_loaded s;
                files := files s |},
             match r ≫= (fun results => mapM (fun '(i, pipeline) =>
                                               batch_entry results i pipeline)
                                          (imap (fun i pipeline => (i, pipeline))
                                             pipeline_data)) with
             | Ok predictions =>
                 {| status := 200;
                    payload := BatchPredictions predictions (length predictions) |}
             | Raise e => {| status := 500; payload := Failed "Batch prediction failed" e |}
             end)
        end
    end.

End Server.

(** Stand-ins for the estimators and the deployment. *)
Module DemoServer.
Import Demo.

#[export] Instance estimators : Estimators := {|
  RandomForestRegressor := 0.5%R;
  GradientBoostingRegressor := 0.3%R;
  StandardScaler := None;
|}.

#[export] Instance deployment : Deployment := {|
  MODEL_PATH := "/app/models/pipeline_risk_model.joblib";
  create_sample_data := material_batch;
  synthetic_target age _ _ := Ok (map (fun _ => VNum 0.5) age);
  DataFrame_of_values items :=
    Ok {[ "0" := map (fun j => default VNull (cell_of_json j)) items ]};
|}.

(** A server before start-up, with no file on disk. *)
Definition cold : server :=
  {| global_predictor := None; model_loaded := false; files := ∅ |}.

(** Two rows as the pipelines table yields them. *)
Definition fetched_rows : list Dict :=
  [ {[ "id" := VNum 1; "name" := VStr "north"; "age_years" := VNum 12 ]};
    {[ "id" := VNum 2; "name" := VStr "south"; "age_years" := VNum 40 ]} ].

(** A server that is serving the trained demo predictor. *)
Definition warm : server :=
  {| global_predictor := Some (trained 0.5 0.3); model_loaded := true; files := ∅ |}.

End DemoServer.

(** ** Closed forms used in the statements *)

Section ClosedForms.
Local Open Scope R_scope.

(** The confidence of one row, in terms of the distance of the two
    predictions. *)
Definition agreement (p_rf p_gb : R) : R := np_clip (1 - Rabs (p_rf - p_gb)) 0.1 1.0.

(** The confidence of one row as the specification words it, with the
    distance doubled. *)
Definition spec_agreement (p_rf p_gb : R) : R :=
  np_clip (1 - 2 * Rabs (p_rf - p_gb)) 0.1 1.0.

Definition unit_interval (p : R) : Prop := 0 <= p <= 1.

(** The value under [key] is a number, or [key] is missing. *)
Definition numeric_or_absent (pipeline_data : Dict) (key : string) : Prop :=
  match pipeline_data !! key with
  | Some (VNum _) | None => True
  | Some _ => False
  end.

(** The number under [key], zero when [key] is missing. *)
Definition number_at (pipeline_data : Dict) (key : string) : R :=
  match pipeline_data !! key with
  | Some (VNum x) => x
  | _ => 0
  end.

End ClosedForms.

(** The columns that [engineer_features] assigns after [age_years]. *)
Definition derived_columns : list string :=
  ["pressure_ratio"; "wall_thickness_ratio"; "corrosion_acceleration";
   "composite_risk_score"; "max_risk_factor";
   "temperature_avg_normalized"; "soil_resistivity_normalized";
   "depth_avg_normalized"; "environmental_stress"].

(** A step that, when it does not raise, leaves the frame alone or assigns
    column [c]. *)
Definition writes (c : string) (s : step) : Prop :=
  forall d d' : DataFrame, s d = Ok d' -> d' = d \/ exists r, d' = <[c := r]> d.

(** A step that cannot change column [k]: it assigns another column, or its
    guard is off. *)
Definition spares (k : string) (s : step) : Prop :=
  (exists c, c <> k /\ writes c s) \/ (forall d, s d = Ok d).

Section StateVocabulary.
Context `{Sklearn}.

(** Nothing but the encoders differs between [st] and [st'], apart from the
    scaler. *)
Definition same_models (st st' : predictor) : Prop :=
  random_forest st' = random_forest st
  /\ gradient_boosting st' = gradient_boosting st
  /\ feature_importance st' = feature_importance st
  /\ is_trained st' = is_trained st.

(** Every encoder of [st] is still in [st'], and an encoder of [st'] that
    [st] lacks belongs to one of [features] that is a column of [d]. *)
Definition only_new_encoders (features : list string) (d : DataFrame)
    (st st' : predictor) : Prop :=
  (forall f classes,
      label_encoders st !! f = Some classes -> label_encoders st' !! f = Some classes)
  /\ (forall f,
        label_encoders st !! f = None -> is_Some (label_encoders st' !! f) ->
        f ∈ features /\ is_Some (d !! f)).

End StateVocabulary.

Section ServerVocabulary.
Context `{Pandas, Clock, Sklearn, !Estimators, Deployment}.

(** What [save_model] writes for a predictor. *)
Definition dumped (p : predictor) : model_data :=
  {| md_models := (random_forest p, gradient_boosting p);
     md_scaler := scaler p;
     md_label_encoders := label_encoders p;
     md_feature_importance := feature_importance p;
     md_is_trained := is_trained p |}.

(** A server that says [model_loaded] holds a trained predictor, and every
    file on disk holds a trained model. *)
Definition serving_invariant (s : server) : Prop :=
  (model_loaded s = true ->
   exists p, global_predictor s = Some p /\ is_trained p = true)
  /\ (forall path md, files s !! path = Some md -> md_is_trained md = true).

End ServerVocabulary.

(** * Properties *)

(** ** Arithmetic of the ensemble *)

Section EnsembleFacts.
Local Open Scope R_scope.

(** The population standard deviation of two numbers is half their
    distance. *)
Lemma np_std_pair (a b : R) : np_std [a; b] = Rabs (a - b) / 2.
Proof.
  unfold np_std, np_mean. cbn [map fold_right length INR].
  replace ((a + (b + 0)) / (1 + 1)) with ((a + b) / 2) by lra.
  replace ((Rsqr (a - (a + b) / 2) + (Rsqr (b - (a + b) / 2) + 0)) / (1 + 1))
    with (Rsqr ((a - b) / 2)) by (unfold Rsqr; field).
  rewrite sqrt_Rsqr_abs. unfold Rdiv. rewrite Rabs_mult.
  rewrite (Rabs_pos_eq (/ 2)); lra.
Qed.

Lemma np_clip_bounds (x lo hi : R) : lo <= hi -> lo <= np_clip x lo hi <= hi.
Proof.
  intros Hle. unfold np_clip, Rmin, Rmax.
  repeat destruct (Rle_dec _ _); lra.
Qed.

Lemma np_clip_mono (x y lo hi : R) : x <= y -> np_clip x lo hi <= np_clip y lo hi.
Proof.
  intros Hle. unfold np_clip, Rmin, Rmax.
  repeat destruct (Rle_dec _ _); lra.
Qed.

Lemma confidence_closed_form (rf gb : list R) :
  confidence rf gb = zip_with agreement rf gb.
Proof.
  unfold confidence, pred_std.
  revert gb. induction rf as [|a rf IH]; intros [|b gb]; cbn; try reflexivity.
  f_equal; [|apply IH].
  unfold agreement. rewrite np_std_pair. f_equal. lra.
Qed.

Lemma agreement_bounds (a b : R) : 0.1 <= agreement a b <= 1.0.
Proof. apply np_clip_bounds. lra. Qed.

Lemma agreement_antitone (a b a' b' : R) :
  Rabs (a - b) <= Rabs (a' - b') -> agreement a' b' <= agreement a b.
Proof. intros Hd. apply np_clip_mono. lra. Qed.

Lemma confidence_bounds (rf gb : list R) :
  Forall (fun c => 0.1 <= c <= 1.0) (confidence rf gb).
Proof.
  rewrite confidence_closed_form.
  revert gb. induction rf as [|a rf IH]; intros [|b gb]; cbn; constructor.
  - apply agreement_bounds.
  - apply IH.
Qed.

Lemma ensemble_pred_closed_form (rf gb : list R) :
  ensemble_pred rf gb = zip_with (fun p_rf p_gb => 0.6 * p_rf + 0.4 * p_gb) rf gb.
Proof.
  unfold ensemble_pred.
  revert gb. induction rf as [|a rf IH]; intros [|b gb]; cbn; try reflexivity.
  f_equal; [lra | apply IH].
Qed.

Lemma ensemble_pred_unit_interval (rf gb : list R) :
  Forall unit_interval rf ->
  Forall unit_interval gb ->
  Forall unit_interval (ensemble_pred rf gb).
Proof.
  unfold ensemble_pred, unit_interval. intros Hrf. revert gb.
  induction Hrf as [|a rf Ha _ IH]; intros gb Hgb; [constructor|].
  destruct Hgb as [|b gb Hb Hgb]; cbn; constructor.
  - lra.
  - apply IH, Hgb.
Qed.

End EnsembleFacts.

(** ** What a successful [predict] returns *)

Section PredictFacts.
Context `{Pandas, Clock, Sklearn}.

(** Unfolding one method call of the monad. *)
Ltac run_bind H :=
  unfold mbind, M_bind, mret, M_ret, raise, lift, get_self in H; cbn beta iota in H.

Lemma predict_untrained (df : DataFrame) (rc : bool) (st : predictor) :
  is_trained st = false -> predict df rc st = (st, Raise ModelNotTrained).
Proof.
  intros Hu. unfold predict, mbind at 1, M_bind at 1, get_self.
  rewrite Hu. reflexivity.
Qed.

Lemma predict_returns (df : DataFrame) (rc : bool) (st st' : predictor) (r : prediction) :
  predict df rc st = (st', Ok r) ->
  failure_probability r
    = ensemble_pred (individual_predictions r).1 (individual_predictions r).2
  /\ confidence_score r
      = if rc then Some (confidence (individual_predictions r).1
                           (individual_predictions r).2)
        else None.
Proof.
  unfold predict. intros Hp. run_bind Hp.
  destruct (negb (is_trained st)); [discriminate|].
  destruct (prepare_data df st) as [st1 [[X y]|e]]; [|discriminate].
  destruct (model_predict (random_forest st1) X) as [rf|e]; [|discriminate].
  destruct (model_predict (gradient_boosting st1) X) as [gb|e]; [|discriminate].
  inversion Hp; subst. split; reflexivity.
Qed.

End PredictFacts.

Section DemoRuns.
Import Demo.

(** A run of [predict] on the stand-ins: the trained demo predictor answers
    one row with the constants of its two regressors. *)
Lemma demo_predict (rf gb : R) :
  predict Demo.training_batch true (Demo.trained rf gb)
  = (Demo.trained rf gb,
     Ok {| failure_probability := ensemble_pred [rf] [gb];
           confidence_score := Some (confidence [rf] [gb]);
           individual_predictions := ([rf], [gb]);
           model_version := "1.0" |}).
Proof. vm_compute. reflexivity. Qed.

End DemoRuns.

Section ConfidenceAndCombination.
Context `{Pandas, Clock, Sklearn}.
Local Open Scope R_scope.

(** C1 (amended): whenever batch inference returns confidence scores, the
    score of each row is clip(1 - 2 * std, 0.1, 1.0) for the population
    standard deviation std of the two per-model predictions, that is
    clip(1 - |p_rf - p_gb|, 0.1, 1.0); every score lies in [0.1, 1.0] and
    the score does not increase when |p_rf - p_gb| grows. *)
Theorem predict_confidence_is_clipped_distance
    (df : DataFrame) (rc : bool) (st st' : predictor) (r : prediction) (c : list R) :
  predict df rc st = (st', Ok r) ->
  confidence_score r = Some c ->
  c = zip_with agreement (individual_predictions r).1 (individual_predictions r).2
  /\ Forall (fun x => 0.1 <= x <= 1.0) c
  /\ (forall a b a' b' : R,
        Rabs (a - b) <= Rabs (a' - b') -> agreement a' b' <= agreement a b).
Proof.
  intros Hp Hc. apply predict_returns in Hp as [_ Hconf].
  rewrite Hc in Hconf. destruct rc; [|discriminate].
  injection Hconf as ->. split; [|split].
  - apply confidence_closed_form.
  - apply confidence_bounds.
  - apply agreement_antitone.
Qed.

(** C2: the combined failure probability of each row is exactly
    0.6 * p_rf + 0.4 * p_gb, with the same two weights for every input. *)
Theorem predict_combines_with_fixed_weights
    (df : DataFrame) (rc : bool) (st st' : predictor) (r : prediction) :
  predict df rc st = (st', Ok r) ->
  failure_probability r
  = zip_with (fun p_rf p_gb => 0.6 * p_rf + 0.4 * p_gb)
      (individual_predictions r).1 (individual_predictions r).2.
Proof.
  intros Hp. apply predict_returns in Hp as [-> _].
  apply ensemble_pred_closed_form.
Qed.

(** C5 (amended): batch inference does not clip; each returned failure
    probability lies in [0, 1] whenever the raw outputs of both regressors
    lie in [0, 1]. *)
Theorem predict_probability_in_unit_interval
    (df : DataFrame) (rc : bool) (st st' : predictor) (r : prediction) :
  predict df rc st = (st', Ok r) ->
  Forall unit_interval (individual_predictions r).1 ->
  Forall unit_interval (individual_predictions r).2 ->
  Forall unit_interval (failure_probability r).
Proof.
  intros Hp Hrf Hgb. apply predict_returns in Hp as [-> _].
  apply ensemble_pred_unit_interval; assumption.
Qed.

End ConfidenceAndCombination.

(** Deciding the comparisons of a closed real expression. *)
Ltac real_cases :=
  repeat match goal with
    | |- context [Rcase_abs ?a] => destruct (Rcase_abs a)
    | _ : context [Rcase_abs ?a] |- _ => destruct (Rcase_abs a)
    | |- context [Rle_dec ?a ?b] => destruct (Rle_dec a b)
    | _ : context [Rle_dec ?a ?b] |- _ => destruct (Rle_dec a b)
    | |- context [decide ?P] => destruct (decide P)
    | _ : context [decide ?P] |- _ => destruct (decide P)
    | |- context [bool_decide ?P] => destruct (bool_decide_reflect P)
    end.

Section DemoInference.
Import Demo.
Local Open Scope R_scope.

Lemma predict_confidence_witness :
  confidence [0.5] [0.3] = zip_with agreement [0.5] [0.3]
  /\ Forall (fun x => 0.1 <= x <= 1.0) (confidence [0.5] [0.3])
  /\ (forall a b a' b' : R,
        Rabs (a - b) <= Rabs (a' - b') -> agreement a' b' <= agreement a b).
Proof.
  exact (predict_confidence_is_clipped_distance
           training_batch true (trained 0.5 0.3) (trained 0.5 0.3) _ _
           (demo_predict 0.5 0.3) eq_refl).
Defined.

(** With the forest answering 0.5 and the boosting model 0.3, [predict]
    returns the confidence 0.8; the doubled distance of the specification
    gives 0.6. *)
Lemma predict_confidence_is_not_doubled_distance :
  exists r : prediction,
    (predict training_batch true (trained 0.5 0.3)).2 = Ok r
    /\ confidence_score r = Some [0.8]
    /\ zip_with spec_agreement (individual_predictions r).1 (individual_predictions r).2
       = [0.6]
    /\ confidence_score r
       <> Some (zip_with spec_agreement (individual_predictions r).1
                  (individual_predictions r).2).
Proof.
  eexists. rewrite demo_predict. split; [reflexivity|].
  cbn [confidence_score individual_predictions fst snd zip_with].
  assert (Hc : confidence [0.5] [0.3] = [0.8]).
  { rewrite confidence_closed_form. cbn. f_equal.
    unfold agreement, np_clip, Rmin, Rmax, Rabs. real_cases; lra. }
  assert (Hs : spec_agreement 0.5 0.3 = 0.6).
  { unfold spec_agreement, np_clip, Rmin, Rmax, Rabs. real_cases; lra. }
  rewrite Hc, Hs. repeat split.
  intros Heq. injection Heq as Heq. lra.
Qed.

Lemma predict_combines_witness :
  ensemble_pred [0.5] [0.3]
  = zip_with (fun p_rf p_gb => 0.6 * p_rf + 0.4 * p_gb) [0.5] [0.3].
Proof.
  exact (predict_combines_with_fixed_weights
           training_batch true (trained 0.5 0.3) (trained 0.5 0.3) _
           (demo_predict 0.5 0.3)).
Defined.

Lemma predict_probability_witness :
  Forall unit_interval (ensemble_pred [0.5] [0.3]).
Proof.
  apply (predict_probability_in_unit_interval
           training_batch true (trained 0.5 0.3) (trained 0.5 0.3) _
           (demo_predict 0.5 0.3)).
  - cbn. constructor; [unfold unit_interval; lra | constructor].
  - cbn. constructor; [unfold unit_interval; lra | constructor].
Defined.

(** Two regressors that both answer 1.5 make [predict] return 1.5. *)
Lemma predict_probability_can_exceed_one :
  exists r : prediction,
    (predict training_batch true (trained 1.5 1.5)).2 = Ok r
    /\ failure_probability r = [1.5 * 0.6 + 1.5 * 0.4]
    /\ ~ Forall unit_interval (failure_probability r).
Proof.
  eexists. rewrite demo_predict. split; [reflexivity|].
  cbn [failure_probability ensemble_pred zip_with].
  split; [reflexivity|].
  intros Hall. apply Forall_cons_1 in Hall as [[_ Hle] _]. lra.
Qed.

End DemoInference.

(** ** Post-processing rules *)

Section PostProcessingFacts.
Context `{Clock}.
Local Open Scope R_scope.

(** C3: the risk tier is critical iff p >= 0.7, high iff 0.5 <= p < 0.7,
    medium iff 0.3 <= p < 0.5 and low iff p < 0.3; each boundary belongs to
    the tier above it. *)
Theorem risk_level_thresholds (p : R) :
  (_get_risk_level p = "critical" <-> 0.7 <= p)
  /\ (_get_risk_level p = "high" <-> 0.5 <= p < 0.7)
  /\ (_get_risk_level p = "medium" <-> 0.3 <= p < 0.5)
  /\ (_get_risk_level p = "low" <-> p < 0.3).
Proof.
  unfold _get_risk_level.
  repeat split; real_cases; intros; try discriminate; try reflexivity; lra.
Qed.

(** The boundary scenarios of the specification. *)
Example risk_level_boundaries :
  _get_risk_level 0.7 = "critical"
  /\ _get_risk_level 0.69999 = "high"
  /\ _get_risk_level 0.5 = "high"
  /\ _get_risk_level 0.3 = "medium".
Proof.
  unfold _get_risk_level. repeat split; real_cases; try reflexivity; lra.
Qed.

Lemma py_max_Rmax (a b : R) : py_max a b = Rmax a b.
Proof. unfold py_max, Rmax. real_cases; lra. Qed.

Lemma gt_number (pipeline_data : Dict) (key : string) (c : R) :
  numeric_or_absent pipeline_data key ->
  gt (get_or_zero pipeline_data key) c
  = Ok (bool_decide (c < number_at pipeline_data key)).
Proof.
  unfold numeric_or_absent, get_or_zero, number_at.
  destruct (pipeline_data !! key) as [[x|s|t|]|]; cbn; intros Hn;
    try contradiction; reflexivity.
Qed.

(** C4 (amended): below 0.3 the estimated failure date is undefined for
    every record; from 0.3 on, for a record whose age_years and
    corrosion_rate are each a number or missing, it is the date of now plus
    max(0.5, (1 - p) * 10) years of 365 days, times 0.8 if age_years > 25
    and times 0.7 if corrosion_rate > 0.1. *)
Theorem estimate_failure_date_rule (p : R) (pipeline_data : Dict) :
  (p < 0.3 -> _estimate_failure_date p pipeline_data = Ok None)
  /\ (0.3 <= p ->
      numeric_or_absent pipeline_data "age_years" ->
      numeric_or_absent pipeline_data "corrosion_rate" ->
      _estimate_failure_date p pipeline_data
      = Ok (Some (date_isoformat
                    (datetime_now
                     + Rmax 0.5 ((1 - p) * 10)
                       * (if decide (25 < number_at pipeline_data "age_years")
                          then 0.8 else 1.0)
                       * (if decide (0.1 < number_at pipeline_data "corrosion_rate")
                          then 0.7 else 1.0)
                       * 365)))).
Proof.
  unfold _estimate_failure_date. split.
  - intros Hp. destruct (decide (p < 0.3)); [reflexivity | lra].
  - intros Hp Hage Hcorr. destruct (decide (p < 0.3)); [lra|].
    rewrite (gt_number _ _ _ Hage), (gt_number _ _ _ Hcorr). cbn.
    unfold estimated_years. rewrite py_max_Rmax.
    do 3 f_equal.
    repeat case_bool_decide; repeat case_decide;
      first [reflexivity | contradiction].
Qed.

End PostProcessingFacts.

Section DemoPostProcessing.
Import Demo.
Local Open Scope R_scope.

Lemma estimate_failure_date_witness :
  _estimate_failure_date 0.2 old_corroding_pipeline = Ok None
  /\ _estimate_failure_date 0.5 old_corroding_pipeline
     = Ok (Some (date_isoformat
                   (datetime_now
                    + Rmax 0.5 ((1 - 0.5) * 10)
                      * (if decide (25 < number_at old_corroding_pipeline "age_years")
                         then 0.8 else 1.0)
                      * (if decide (0.1 < number_at old_corroding_pipeline "corrosion_rate")
                         then 0.7 else 1.0)
                      * 365))).
Proof.
  destruct (estimate_failure_date_rule 0.5 old_corroding_pipeline) as [_ Hdate].
  destruct (estimate_failure_date_rule 0.2 old_corroding_pipeline) as [Hnone _].
  split.
  - apply Hnone. lra.
  - apply Hdate; [lra | exact I | exact I].
Defined.

(** A record whose age is null, as the storage layer yields for an asset
    without installation date: the comparison [None > 25] raises. *)
Lemma estimate_failure_date_null_age :
  _estimate_failure_date 0.5 {[ "age_years" := VNull ]} = Raise TypeError.
Proof.
  unfold _estimate_failure_date.
  destruct (decide (0.5 < 0.3)); [lra | reflexivity].
Qed.

End DemoPostProcessing.

(** ** The trained flag gates inference *)

Section Gate.
Context `{Pandas, Clock, Sklearn}.

(** C7: with the trained flag false, batch and single-asset inference both
    raise ModelNotTrained and leave the predictor as it was: the flag is
    tested before feature engineering, encoding or scaling. *)
Theorem inference_requires_training
    (df : DataFrame) (rc : bool) (pipeline_data : Dict) (st : predictor) :
  is_trained st = false ->
  predict df rc st = (st, Raise ModelNotTrained)
  /\ predict_single_pipeline pipeline_data st = (st, Raise ModelNotTrained).
Proof.
  intros Hu. split.
  - apply predict_untrained, Hu.
  - unfold predict_single_pipeline, mbind, M_bind.
    rewrite predict_untrained by exact Hu. reflexivity.
Qed.

End Gate.

Section DemoGate.
Import Demo.

Lemma inference_requires_training_witness :
  predict training_batch true (fresh 0.5 0.3) = (fresh 0.5 0.3, Raise ModelNotTrained)
  /\ predict_single_pipeline old_corroding_pipeline (fresh 0.5 0.3)
     = (fresh 0.5 0.3, Raise ModelNotTrained).
Proof.
  apply (inference_requires_training training_batch true old_corroding_pipeline
           (fresh 0.5 0.3)).
  reflexivity.
Defined.

End DemoGate.

(** ** The label encoder *)

(** [mapM] in the exception monad stops at the first exception. *)
Lemma mapM_result_cons {A B} (f : A -> result B) (x : A) (l : list A) :
  mapM f (x :: l)
  = match f x with
    | Ok y => match mapM f l with
              | Ok k => Ok (y :: k)
              | Raise e => Raise e
              end
    | Raise e => Raise e
    end.
Proof. cbn. destruct (f x); [|reflexivity]. cbn. destruct (mapM f l); reflexivity. Qed.

Section LabelEncoderFacts.
Import LabelEncoder.

Lemma index_of_elem (x : string) (classes : list string) (i : nat) :
  index_of x classes = Some i -> x ∈ classes.
Proof.
  revert i. induction classes as [|c rest IH]; intros i; cbn; [discriminate|].
  destruct (decide (x = c)) as [->|Hne]; [intros _; apply list_elem_of_here|].
  destruct (index_of x rest) as [j|]; [|discriminate].
  intros _. apply list_elem_of_further. eapply IH. reflexivity.
Qed.

Lemma elem_index_of (x : string) (classes : list string) :
  x ∈ classes -> is_Some (index_of x classes).
Proof.
  induction classes as [|c rest IH]; intros Hin; [inversion Hin|]. cbn.
  destruct (decide (x = c)) as [->|Hne]; [eexists; reflexivity|].
  apply elem_of_cons in Hin as [?|Hin]; [contradiction|].
  destruct (IH Hin) as [j ->]. eexists; reflexivity.
Qed.

Lemma index_of_head (c : string) (rest : list string) : index_of c (c :: rest) = Some 0.
Proof. cbn. destruct (decide (c = c)); [reflexivity | contradiction]. Qed.

(** A successful [transform] gives every label its position. *)
Lemma transform_Ok (classes y : list string) (c : list nat) :
  transform classes y = Ok c ->
  Forall2 (fun x i => index_of x classes = Some i) y c.
Proof.
  unfold transform. revert c.
  induction y as [|x y IH]; intros c.
  - intros [= <-]. constructor.
  - rewrite mapM_result_cons. unfold encode1 at 1.
    destruct (index_of x classes) as [i|] eqn:Hi; [|discriminate].
    destruct (mapM (encode1 classes) y) as [c'|e]; [|discriminate].
    intros [= <-]. constructor; [exact Hi | apply IH; reflexivity].
Qed.

(** [transform] raises nothing but the unseen-label [ValueError]. *)
Lemma transform_Raise (classes y : list string) (e : exn) :
  transform classes y = Raise e -> e = unseen.
Proof.
  unfold transform. induction y as [|x y IH]; [discriminate|].
  rewrite mapM_result_cons. unfold encode1 at 1.
  destruct (index_of x classes) as [i|].
  - destruct (mapM (encode1 classes) y) as [c'|e']; [discriminate|].
    intros [= <-]. apply IH. reflexivity.
  - intros [= <-]. reflexivity.
Qed.

(** [transform] succeeds on labels that are all known. *)
Lemma transform_seen (classes y : list string) :
  Forall (fun x => x ∈ classes) y -> exists c, transform classes y = Ok c.
Proof.
  unfold transform. induction 1 as [|x y Hx _ [c IH]].
  - eexists; reflexivity.
  - rewrite mapM_result_cons. unfold encode1 at 1.
    destruct (elem_index_of _ _ Hx) as [i ->].
    rewrite IH. eexists; reflexivity.
Qed.

(** Fitting on a column with at least one row learns at least one class. *)
Lemma insert_unique_nonempty (x : string) (l : list string) : insert_unique x l <> [].
Proof. destruct l as [|y l]; cbn; [|destruct (String.compare x y)]; discriminate. Qed.

Lemma fit_nonempty (y : list string) : y <> [] -> fit y <> [].
Proof.
  destruct y as [|x y]; [contradiction|]. intros _. apply insert_unique_nonempty.
Qed.

Lemma fit_elem (x : string) (y : list string) : x ∈ y -> x ∈ fit y.
Proof.
  assert (Hins : forall a b l, a = b \/ a ∈ l -> a ∈ insert_unique b l).
  { intros a b l. induction l as [|c l IH]; cbn.
    - intros [->|Hin]; [apply list_elem_of_here | inversion Hin].
    - destruct (String.compare b c) eqn:Hc.
      + apply String.compare_eq_iff in Hc as ->.
        intros [->|Hin]; [apply list_elem_of_here | exact Hin].
      + intros [->|Hin]; [apply list_elem_of_here | apply list_elem_of_further, Hin].
      + intros [->|Hin].
        * apply list_elem_of_further, IH. left; reflexivity.
        * apply elem_of_cons in Hin as [->|Hin]; [apply list_elem_of_here|].
          apply list_elem_of_further, IH. right; exact Hin. }
  induction y as [|b y IH]; intros Hin; [inversion Hin|].
  cbn. apply Hins. apply elem_of_cons in Hin as [->|Hin]; [left; reflexivity|].
  right. apply IH, Hin.
Qed.

(** Encoding right after fitting on the same column cannot raise. *)
Lemma fit_transform_Ok (y : list string) : exists c, transform (fit y) y = Ok c.
Proof. apply transform_seen, Forall_forall. intros x. apply fit_elem. Qed.

(** The frozen branch on an encoder with a first class: no exception, and
    every label is encoded as itself when known, as the first class
    otherwise. *)
Lemma encode_frozen_total (most_common : string) (rest strs : list string) :
  exists c,
    encode_frozen (most_common :: rest) strs = Ok c
    /\ Forall2 (fun x i =>
                  index_of (if decide (x ∈ most_common :: rest) then x else most_common)
                    (most_common :: rest) = Some i) strs c.
Proof.
  set (classes := most_common :: rest).
  unfold encode_frozen. fold classes.
  destruct (transform classes strs) as [c|e] eqn:Ht.
  - exists c. split; [reflexivity|].
    apply transform_Ok in Ht.
    eapply Forall2_impl; [exact Ht|]. cbn. intros x i Hi.
    destruct (decide (x ∈ classes)) as [|Hnot]; [exact Hi|].
    exfalso. apply Hnot. eapply index_of_elem, Hi.
  - apply transform_Raise in Ht as ->. unfold unseen, classes at 1.
    destruct (transform_seen classes
                (map (fun x => if decide (x ∈ classes) then x else most_common) strs))
      as [c Hc].
    { apply Forall_forall. intros x Hx. apply list_elem_of_fmap in Hx as [x0 [-> _]].
      destruct (decide (x0 ∈ classes)); [assumption | apply list_elem_of_here]. }
    exists c. split; [exact Hc|].
    apply transform_Ok in Hc. apply Forall2_fmap_l in Hc. exact Hc.
Qed.

(** On an encoder without classes the fallback itself fails. *)
Lemma encode_frozen_no_classes (x : string) (strs : list string) :
  encode_frozen [] (x :: strs) = Raise IndexError.
Proof. reflexivity. Qed.

End LabelEncoderFacts.

(** ** Feature engineering: which columns change *)

Section EngineeringFacts.
Context `{Pandas, Clock}.

(** Case analysis along the binds and guards of a step. *)
Ltac result_inv H :=
  repeat (unfold mbind, result_bind in H; cbn beta iota in H;
          match type of H with
          | context [if ?b then _ else _] => destruct b eqn:?
          | context [match ?x with Ok _ => _ | Raise _ => _ end] =>
              destruct x eqn:?; try discriminate H
          end);
  try discriminate H;
  try (injection H as <-).

Ltac solve_writes :=
  let Hs := fresh "Hs" in
  intros ? ? Hs; result_inv Hs;
  first [left; reflexivity | right; eexists; reflexivity].

Lemma pressure_ratio_step_writes df : writes "pressure_ratio" (pressure_ratio_step df).
Proof. unfold pressure_ratio_step. solve_writes. Qed.

Lemma wall_thickness_ratio_step_writes df :
  writes "wall_thickness_ratio" (wall_thickness_ratio_step df).
Proof. unfold wall_thickness_ratio_step. solve_writes. Qed.

Lemma corrosion_acceleration_step_writes df :
  writes "corrosion_acceleration" (corrosion_acceleration_step df).
Proof. unfold corrosion_acceleration_step. solve_writes. Qed.

Lemma composite_risk_score_step_writes df :
  writes "composite_risk_score" (composite_risk_score_step df).
Proof. unfold composite_risk_score_step. solve_writes. Qed.

Lemma max_risk_factor_step_writes df :
  writes "max_risk_factor" (max_risk_factor_step df).
Proof. unfold max_risk_factor_step. solve_writes. Qed.

Lemma normalize_step_writes factor : writes (normalized factor) (normalize_step factor).
Proof. unfold normalize_step. solve_writes. Qed.

Lemma environmental_stress_step_writes available :
  writes "environmental_stress" (environmental_stress_step available).
Proof. unfold environmental_stress_step. solve_writes. Qed.

Lemma age_step_writes df : writes "age_years" (age_step df).
Proof.
  unfold age_step. destruct (df !! "installation_date"); solve_writes.
Qed.

(** Steps that write into [cols] leave every other column alone. *)
Lemma run_steps_frame (cols : list string) (steps : list step) (d : DataFrame) (k : string) :
  Forall (fun s => exists c, c ∈ cols /\ writes c s) steps ->
  k ∉ cols ->
  run_steps steps d !! k = d !! k.
Proof.
  intros Hsteps Hk. revert d.
  induction Hsteps as [|s steps [c [Hc Hw]] _ IH]; intros d; [reflexivity|].
  cbn. destruct (s d) as [d'|e] eqn:Hs; [|reflexivity].
  rewrite IH. destruct (Hw d d' Hs) as [->|[r ->]]; [reflexivity|].
  apply lookup_insert_ne. intros ->. contradiction.
Qed.

Lemma later_steps_write (df : DataFrame) :
  Forall (fun s => exists c, c ∈ derived_columns /\ writes c s) (later_steps df).
Proof.
  assert (Hin : forall c, bool_decide (c ∈ derived_columns) = true -> c ∈ derived_columns)
    by (intros c; apply bool_decide_eq_true_1).
  unfold later_steps. apply Forall_app. split.
  - repeat constructor;
      eexists; (split; [|first [apply pressure_ratio_step_writes
                              | apply wall_thickness_ratio_step_writes
                              | apply corrosion_acceleration_step_writes
                              | apply composite_risk_score_step_writes
                              | apply max_risk_factor_step_writes]]);
      apply Hin; vm_compute; reflexivity.
  - unfold environmental_steps, environmental_factors. cbn [filter list_filter].
    repeat case_decide;
      repeat constructor;
      eexists; (split; [|first [apply normalize_step_writes
                              | apply environmental_stress_step_writes]]);
      apply Hin; vm_compute; reflexivity.
Qed.

(** Columns that [engineer_features] never assigns come out as they went in. *)
Lemma engineer_features_frame (df : DataFrame) (k : string) :
  k ∉ "age_years" :: derived_columns ->
  engineer_features df !! k = df !! k.
Proof.
  intros Hk. unfold engineer_features.
  apply (run_steps_frame ("age_years" :: derived_columns)); [|exact Hk].
  constructor.
  - exists "age_years". split; [apply list_elem_of_here | apply age_step_writes].
  - eapply Forall_impl; [apply later_steps_write|].
    cbn. intros s [c [Hc Hw]]. exists c. split; [apply list_elem_of_further, Hc | exact Hw].
Qed.

End EngineeringFacts.

(** ** What [prepare_data] does to the predictor *)

Section StateFacts.
Context `{Pandas, Clock, Sklearn}.

Ltac unfold_monad :=
  unfold mbind, M_bind, mret, M_ret, raise, lift, get_self,
    set_label_encoder, set_scaler in *; cbn beta iota in *.

Lemma same_models_refl (st : predictor) : same_models st st.
Proof. repeat split. Qed.

Lemma same_models_trans (st1 st2 st3 : predictor) :
  same_models st1 st2 -> same_models st2 st3 -> same_models st1 st3.
Proof.
  unfold same_models. intros (?&?&?&?) (?&?&?&?). repeat split; congruence.
Qed.

Lemma only_new_encoders_refl (features : list string) (d : DataFrame) (st : predictor) :
  only_new_encoders features d st st.
Proof.
  split; [auto|]. intros f Hnone [classes Hsome]. congruence.
Qed.

(** One turn of the loop adds at most the encoder of its own feature, and
    assigns at most the column of that feature. *)
Lemma encode_feature_effect (feature : string) (d : DataFrame)
    (st st' : predictor) (r : result DataFrame) :
  encode_feature feature d st = (st', r) ->
  same_models st st'
  /\ scaler st' = scaler st
  /\ only_new_encoders [feature] d st st'
  /\ (forall d', r = Ok d' ->
        d' = d \/ (is_Some (d !! feature) /\ exists c, d' = <[feature := c]> d)).
Proof.
  unfold encode_feature. destruct (d !! feature) as [col|] eqn:Hcol.
  - unfold_monad.
    destruct (label_encoders st !! feature) as [classes|] eqn:Henc.
    + unfold_monad.
      destruct (encode_frozen classes (map astype_str col)) as [c|e];
        intros [= <- <-];
        (split; [apply same_models_refl|]); (split; [reflexivity|]);
        (split; [apply only_new_encoders_refl|]).
      * intros d' [= <-]. right. split; [eauto|]. eexists; reflexivity.
      * intros d' [=].
    + unfold_monad.
      destruct (LabelEncoder.transform (LabelEncoder.fit (map astype_str col))
                  (map astype_str col)) as [c|e];
        intros [= <- <-];
        (split; [repeat split|]); (split; [reflexivity|]);
        (split;
         [split;
          [intros f classes Hf; cbn;
           rewrite lookup_insert_ne by congruence; exact Hf
          |intros f Hf Hsome; cbn in Hsome;
           destruct (decide (feature = f)) as [<-|Hne];
           [split; [apply list_elem_of_here | eauto]
           |rewrite lookup_insert_ne in Hsome by exact Hne;
            destruct Hsome as [? Hsome]; congruence]]|]).
      * intros d' [= <-]. right. split; [eauto|]. eexists; reflexivity.
      * intros d' [=].
  - unfold_monad. intros [= <- <-].
    split; [apply same_models_refl|]. split; [reflexivity|].
    split; [apply only_new_encoders_refl|].
    intros d' [= <-]. left; reflexivity.
Qed.

(** The whole loop over the categorical features. *)
Lemma encode_features_effect (features : list string) (d : DataFrame)
    (st st' : predictor) (r : result DataFrame) :
  encode_features features d st = (st', r) ->
  same_models st st'
  /\ scaler st' = scaler st
  /\ only_new_encoders features d st st'
  /\ (forall d', r = Ok d' ->
        (forall k, k ∉ features -> d' !! k = d !! k)
        /\ (forall k, is_Some (d' !! k) <-> is_Some (d !! k))).
Proof.
  revert d st. induction features as [|feature rest IH]; intros d st; cbn.
  - unfold_monad. intros [= <- <-].
    split; [apply same_models_refl|]. split; [reflexivity|].
    split; [apply only_new_encoders_refl|].
    intros d' [= <-]. split; [reflexivity | reflexivity].
  - unfold mbind, M_bind.
    destruct (encode_feature feature d st) as [st1 [d1|e]] eqn:Hef.
    + apply encode_feature_effect in Hef as (Hm1 & Hs1 & [Hk1 Hn1] & Hd1).
      specialize (Hd1 d1 eq_refl).
      assert (Hpres : forall k, is_Some (d1 !! k) <-> is_Some (d !! k)).
      { intros k. destruct Hd1 as [->|[Hf [c ->]]]; [reflexivity|].
        destruct (decide (feature = k)) as [<-|Hne].
        - rewrite lookup_insert_eq. split; [intros _; exact Hf | eauto].
        - rewrite lookup_insert_ne by exact Hne. reflexivity. }
      intros Hrest. apply IH in Hrest as (Hm2 & Hs2 & [Hk2 Hn2] & Hd2).
      split; [eapply same_models_trans; eassumption|].
      split; [congruence|].
      split; [split|].
      * intros f classes Hf. apply Hk2, Hk1, Hf.
      * intros f Hf Hsome.
        destruct (label_encoders st1 !! f) as [classes|] eqn:Hf1.
        -- destruct (Hn1 f Hf) as [Hin Hcol]; [eauto|].
           apply list_elem_of_singleton in Hin as ->.
           split; [apply list_elem_of_here | exact Hcol].
        -- destruct (Hn2 f Hf1 Hsome) as [Hin Hcol].
           split; [apply list_elem_of_further, Hin | apply Hpres, Hcol].
      * intros d' Hr. destruct (Hd2 d' Hr) as [Hframe Hpres2]. split.
        -- intros k Hk. apply not_elem_of_cons in Hk as [Hne Hk].
           rewrite (Hframe k Hk).
           destruct Hd1 as [->|[_ [c ->]]]; [reflexivity|].
           apply lookup_insert_ne. congruence.
        -- intros k. rewrite Hpres2. apply Hpres.
    + apply encode_feature_effect in Hef as (Hm1 & Hs1 & [Hk1 Hn1] & _).
      intros [= <- <-].
      split; [exact Hm1|]. split; [exact Hs1|].
      split; [split|].
      * exact Hk1.
      * intros f Hf Hsome. destruct (Hn1 f Hf Hsome) as [Hin Hcol].
        apply list_elem_of_singleton in Hin as ->.
        split; [apply list_elem_of_here | exact Hcol].
      * intros d' [=].
Qed.

(** [prepare_data] leaves the regressors, the importances and the trained
    flag alone; it refits the scaler only on an untrained predictor; it adds
    encoders only for categorical columns of the batch that had none; and
    the target it returns is read off a frame that agrees with the
    engineered frame outside the categorical columns. *)
Lemma prepare_data_effect (df : DataFrame) (st st' : predictor)
    (r : result (matrix * option (list value))) :
  prepare_data df st = (st', r) ->
  same_models st st'
  /\ (is_trained st = true -> scaler st' = scaler st)
  /\ only_new_encoders categorical_features (engineer_features df) st st'
  /\ (forall X y, r = Ok (X, y) ->
        exists dp, target dp = Ok y
                   /\ forall k, k ∉ categorical_features ->
                                dp !! k = engineer_features df !! k).
Proof.
  unfold prepare_data, mbind at 1, M_bind at 1.
  destruct (encode_features categorical_features (engineer_features df) st)
    as [st1 [dp|e]] eqn:Henc;
    apply encode_features_effect in Henc as (Hm & Hs & Hnew & Hd).
  - destruct (Hd dp eq_refl) as [Hframe _]. clear Hd.
    destruct (available_features dp) as [|f fs].
    { unfold raise. intros [= <- <-].
      split; [exact Hm|]. split; [intros _; exact Hs|]. split; [exact Hnew|].
      intros X y [=]. }
    unfold_monad.
    destruct (select_fillna_median (f :: fs) dp) as [X|e].
    2:{ intros [= <- <-].
        split; [exact Hm|]. split; [intros _; exact Hs|]. split; [exact Hnew|].
        intros X y [=]. }
    destruct (is_trained st1) eqn:Htr.
    + unfold_monad.
      destruct (scaler_transform (scaler st1) X) as [Xs|e].
      2:{ intros [= <- <-].
          split; [exact Hm|]. split; [intros _; exact Hs|]. split; [exact Hnew|].
          intros ? y [=]. }
      destruct (target dp) as [y|e] eqn:Hy; intros [= <- <-];
        (split; [exact Hm|]); (split; [intros _; exact Hs|]); (split; [exact Hnew|]).
      * intros ? ? [= <- <-]. exists dp. split; [exact Hy | exact Hframe].
      * intros ? ? [=].
    + assert (Huntrained : is_trained st = false).
      { destruct Hm as (_ & _ & _ & <-). exact Htr. }
      unfold fit_scaler.
      destruct (scaler_fit_transform (scaler st1) X) as [s [Xs|e]]; cbn.
      2:{ intros [= <- <-].
          split; [exact Hm|]. split; [congruence|]. split; [exact Hnew|].
          intros ? y [=]. }
      destruct (target dp) as [y|e] eqn:Hy; intros [= <- <-];
        (split; [exact Hm|]); (split; [congruence|]); (split; [exact Hnew|]).
      * intros ? ? [= <- <-]. exists dp. split; [exact Hy | exact Hframe].
      * intros ? ? [=].
  - intros [= <- <-].
    split; [exact Hm|]. split; [intros _; exact Hs|]. split; [exact Hnew|].
    intros X y [=].
Qed.

End StateFacts.

(** ** Encoding with a frozen encoder *)

Section FrozenEncoder.
Context `{Pandas, Clock, Sklearn}.

(** C6 (amended): for a categorical attribute whose encoder is already
    fitted and has learned at least one class, the first being
    [most_common], encoding a column never raises and leaves the predictor
    unchanged: the column is replaced by the codes of its values, each value
    being encoded as its own class when the encoder knows it and as the
    first class otherwise, whose code is 0. *)
Theorem frozen_encoder_falls_back
    (feature most_common : string) (rest : list string) (col : list value)
    (d : DataFrame) (st : predictor) :
  label_encoders st !! feature = Some (most_common :: rest) ->
  d !! feature = Some col ->
  exists c : list nat,
    encode_feature feature d st
    = (st, Ok (<[feature := map (fun i => VNum (INR i)) c]> d))
    /\ Forall2 (fun v i =>
                  LabelEncoder.index_of
                    (if decide (astype_str v ∈ most_common :: rest)
                     then astype_str v else most_common)
                    (most_common :: rest) = Some i) col c
    /\ LabelEncoder.index_of most_common (most_common :: rest) = Some 0.
Proof.
  intros Henc Hcol.
  destruct (encode_frozen_total most_common rest (map astype_str col)) as [c [Hc Hall]].
  exists c. split; [|split].
  - unfold encode_feature. rewrite Hcol.
    unfold mbind, M_bind, get_self, lift, mret, M_ret. cbn beta iota.
    rewrite Henc. cbn beta iota. rewrite Hc. reflexivity.
  - apply Forall2_fmap_l in Hall. exact Hall.
  - apply index_of_head.
Qed.

End FrozenEncoder.

Section DemoEncoder.
Import Demo.

Lemma frozen_encoder_witness :
  exists c : list nat,
    encode_feature "material" titanium_frame trained_on_materials
    = (trained_on_materials,
       Ok (<["material" := map (fun i => VNum (INR i)) c]> titanium_frame))
    /\ Forall2 (fun v i =>
                  LabelEncoder.index_of
                    (if decide (astype_str v ∈ ["Carbon Steel"; "HDPE"])
                     then astype_str v else "Carbon Steel")
                    ["Carbon Steel"; "HDPE"] = Some i) [VStr "Titanium"] c
    /\ LabelEncoder.index_of "Carbon Steel" ["Carbon Steel"; "HDPE"] = Some 0.
Proof.
  apply (frozen_encoder_falls_back "material" "Carbon Steel" ["HDPE"]
           [VStr "Titanium"] titanium_frame trained_on_materials).
  - vm_compute. reflexivity.
  - reflexivity.
Defined.

(** A frozen encoder without classes.  Training on a batch without rows
    raises in the scaler, after [prepare_data] has stored the encoder of
    material, fitted on no value.  The next batch finds that encoder frozen;
    its material is not among the classes and there is no first class to
    fall back on: encoding raises IndexError, and so do [prepare_data] and
    [train]. *)
Lemma frozen_encoder_without_classes_raises :
  (train zero_row_batch (fresh 0.5 0.3)).2
  = Raise (ValueError "Found array with 0 sample(s)")
  /\ label_encoders trained_on_no_rows !! "material" = Some []
  /\ hdpe_batch !! "material" = Some [VStr "HDPE"]
  /\ encode_feature "material" hdpe_batch trained_on_no_rows
     = (trained_on_no_rows, Raise IndexError)
  /\ (prepare_data hdpe_batch trained_on_no_rows).2 = Raise IndexError
  /\ (train material_batch trained_on_no_rows).2 = Raise IndexError.
Proof.
  assert (Hst : trained_on_no_rows
                = {| random_forest := 0.5%R; gradient_boosting := 0.3%R;
                     scaler := None;
                     label_encoders := {[ "material" := [] ]};
                     feature_importance := ∅; is_trained := false |}).
  { vm_compute. reflexivity. }
  refine (conj _ (conj _ (conj _ (conj _ (conj _ _))))).
  - vm_compute. reflexivity.
  - rewrite Hst. reflexivity.
  - reflexivity.
  - rewrite Hst. vm_compute. reflexivity.
  - rewrite Hst. vm_compute. reflexivity.
  - rewrite Hst. vm_compute. reflexivity.
Qed.

(** The unseen material is written back as code 0, the code of the first
    class. *)
Example unseen_material_gets_code_zero :
  (encode_feature "material" titanium_frame trained_on_materials).2
  = Ok (<["material" := [VNum (INR 0)]]> titanium_frame).
Proof. vm_compute. reflexivity. Qed.

End DemoEncoder.

(** ** The age column *)

Section AgeColumn.
Context `{Pandas, Clock}.

Lemma age_years_not_derived : "age_years" ∉ derived_columns.
Proof. apply (bool_decide_unpack _). vm_compute. exact I. Qed.

(** With an installation date that converts and can be subtracted from now,
    the age column is assigned from it, whatever the batch supplied. *)
Lemma engineer_features_age_assigned
    (df : DataFrame) (dates : list value) (ts : list (option Z)) :
  df !! "installation_date" = Some dates ->
  mapM to_datetime dates = Ok ts ->
  subtract_from_now pd_now dates ts = Ok tt ->
  engineer_features df !! "age_years" = Some (map (age_of pd_now) ts).
Proof.
  intros Hdates Hts Hsub. unfold engineer_features. cbn [run_steps].
  unfold age_step at 1. rewrite Hdates, Hts.
  unfold mbind at 1, result_bind at 1. rewrite Hsub.
  unfold mbind, result_bind.
  rewrite (run_steps_frame derived_columns);
    [apply lookup_insert_eq | apply later_steps_write | apply age_years_not_derived].
Qed.

(** Without an installation date the age column is not touched. *)
Lemma engineer_features_age_kept (df : DataFrame) :
  df !! "installation_date" = None ->
  engineer_features df !! "age_years" = df !! "age_years".
Proof.
  intros Hdates. unfold engineer_features. cbn [run_steps].
  unfold age_step at 1. rewrite Hdates.
  apply (run_steps_frame derived_columns);
    [apply later_steps_write | apply age_years_not_derived].
Qed.

(** A date that does not convert ends the [try] block at its first
    statement. *)
Lemma engineer_features_age_raises (df : DataFrame) (dates : list value) (e : exn) :
  df !! "installation_date" = Some dates ->
  mapM to_datetime dates = Raise e ->
  engineer_features df = df.
Proof.
  intros Hdates Hts. unfold engineer_features. cbn [run_steps].
  unfold age_step at 1. rewrite Hdates, Hts. reflexivity.
Qed.

(** So does a converted column that cannot be subtracted from now. *)
Lemma engineer_features_subtraction_raises
    (df : DataFrame) (dates : list value) (ts : list (option Z)) (e : exn) :
  df !! "installation_date" = Some dates ->
  mapM to_datetime dates = Ok ts ->
  subtract_from_now pd_now dates ts = Raise e ->
  engineer_features df = df.
Proof.
  intros Hdates Hts Hsub. unfold engineer_features. cbn [run_steps].
  unfold age_step at 1. rewrite Hdates, Hts.
  unfold mbind at 1, result_bind at 1. rewrite Hsub. reflexivity.
Qed.

(** C9 (amended): when installation_date is present, converts to dates and
    the dates can be subtracted from now, feature engineering sets age_years
    to the whole days between now and the installation date divided by
    365.25, whether or not the batch supplied age_years; the supplied
    age_years is left as it is when installation_date is absent, when its
    conversion raises, and when the subtraction from now raises (the whole
    batch then comes back as it was given). *)
Theorem age_years_follows_installation_date (df : DataFrame) :
  (forall dates ts,
      df !! "installation_date" = Some dates ->
      mapM to_datetime dates = Ok ts ->
      subtract_from_now pd_now dates ts = Ok tt ->
      engineer_features df !! "age_years" = Some (map (age_of pd_now) ts))
  /\ (df !! "installation_date" = None ->
      engineer_features df !! "age_years" = df !! "age_years")
  /\ (forall dates e,
        df !! "installation_date" = Some dates ->
        mapM to_datetime dates = Raise e ->
        engineer_features df = df)
  /\ (forall dates ts e,
        df !! "installation_date" = Some dates ->
        mapM to_datetime dates = Ok ts ->
        subtract_from_now pd_now dates ts = Raise e ->
        engineer_features df = df).
Proof.
  split; [|split; [|split]].
  - intros dates ts. apply engineer_features_age_assigned.
  - apply engineer_features_age_kept.
  - intros dates e. apply engineer_features_age_raises.
  - intros dates ts e. apply engineer_features_subtraction_raises.
Qed.

End AgeColumn.

Section DemoAge.
Import Demo.
Local Open Scope R_scope.

Lemma age_years_witness :
  engineer_features dated_batch !! "age_years"
  = Some (map (age_of pd_now) [Some 0%Z])
  /\ engineer_features unlabelled_batch !! "age_years" = unlabelled_batch !! "age_years".
Proof.
  destruct (age_years_follows_installation_date dated_batch) as [Hassigned _].
  destruct (age_years_follows_installation_date unlabelled_batch) as [_ [Hkept _]].
  split.
  - apply (Hassigned [VDate 0]); reflexivity.
  - apply Hkept. reflexivity.
Defined.

(** A batch that supplies age_years = 5 and an installation date 366 days
    before now comes out with age_years = 366 / 365.25. *)
Lemma supplied_age_years_is_overwritten :
  dated_batch !! "installation_date" = Some [VDate 0]
  /\ dated_batch !! "age_years" = Some [VNum 5]
  /\ engineer_features dated_batch !! "age_years" = Some [VNum (366 / 365.25)]
  /\ engineer_features dated_batch !! "age_years" <> dated_batch !! "age_years".
Proof.
  assert (Hage : engineer_features dated_batch !! "age_years"
                 = Some [VNum (366 / 365.25)]).
  { rewrite (engineer_features_age_assigned dated_batch [VDate 0] [Some 0%Z]);
      reflexivity. }
  assert (Hsupplied : dated_batch !! "age_years" = Some [VNum 5]) by reflexivity.
  split; [reflexivity|]. split; [exact Hsupplied|]. split; [exact Hage|].
  rewrite Hage, Hsupplied. intros [= Heq].
  assert (Hq : 365.25 * (366 / 365.25) = 366) by (field; lra).
  rewrite Heq in Hq. lra.
Qed.

End DemoAge.

(** ** Training without a target *)

Section NoTarget.
Context `{Pandas, Clock, Sklearn}.

Lemma target_columns_not_assigned :
  Forall (fun k => (k ∉ "age_years" :: derived_columns) /\ (k ∉ categorical_features))
    ["failure_probability"; "incident_occurred"].
Proof. apply (bool_decide_unpack _). vm_compute. exact I. Qed.

(** Without either target column in the batch, a successful [prepare_data]
    returns no target. *)
Lemma prepare_data_no_target (df : DataFrame) (st st' : predictor)
    (X : matrix) (y : option (list value)) :
  df !! "failure_probability" = None ->
  df !! "incident_occurred" = None ->
  prepare_data df st = (st', Ok (X, y)) ->
  y = None.
Proof.
  intros Hfp Hio Hprep.
  apply prepare_data_effect in Hprep as (_ & _ & _ & Hy).
  destruct (Hy X y eq_refl) as [dp [Htarget Hframe]].
  pose proof target_columns_not_assigned as Hcols.
  apply Forall_cons in Hcols as [[Hfp1 Hfp2] Hcols].
  apply Forall_cons in Hcols as [[Hio1 Hio2] _].
  unfold target in Htarget.
  rewrite (Hframe _ Hfp2), (engineer_features_frame _ _ Hfp1), Hfp in Htarget.
  rewrite (Hframe _ Hio2), (engineer_features_frame _ _ Hio1), Hio in Htarget.
  congruence.
Qed.

(** [train] on a batch without target runs [prepare_data] and stops. *)
Lemma train_no_target (df : DataFrame) (st : predictor) :
  df !! "failure_probability" = None ->
  df !! "incident_occurred" = None ->
  train df st
  = ((prepare_data df st).1,
     match (prepare_data df st).2 with
     | Ok _ => Raise NoTargetVariable
     | Raise e => Raise e
     end).
Proof.
  intros Hfp Hio. unfold train, mbind at 1, M_bind at 1.
  destruct (prepare_data df st) as [st' [[X y]|e]] eqn:Hprep; [|reflexivity].
  rewrite (prepare_data_no_target df st st' X y Hfp Hio Hprep). reflexivity.
Qed.

(** C8 (amended): on a training batch with neither a failure_probability nor
    an incident_occurred column, train always fails and fits no regressor:
    with NoTargetVariable when data preparation succeeds, and with the error
    of data preparation when that fails first; the regressors, the
    importances and the trained flag stay as they were. *)
Theorem train_without_target_fails (df : DataFrame) (st : predictor) :
  df !! "failure_probability" = None ->
  df !! "incident_occurred" = None ->
  (exists e, (train df st).2 = Raise e)
  /\ ((exists Xy, (prepare_data df st).2 = Ok Xy) ->
      (train df st).2 = Raise NoTargetVariable)
  /\ (forall e, (prepare_data df st).2 = Raise e -> (train df st).2 = Raise e)
  /\ same_models st (train df st).1.
Proof.
  intros Hfp Hio. rewrite (train_no_target df st Hfp Hio). cbn [fst snd].
  destruct (prepare_data df st) as [st' r] eqn:Hprep. cbn [fst snd].
  split; [|split; [|split]].
  - destruct r as [Xy|e]; eexists; reflexivity.
  - intros [Xy ->]. reflexivity.
  - intros e ->. reflexivity.
  - apply prepare_data_effect in Hprep as [Hm _]. exact Hm.
Qed.

End NoTarget.

Section DemoNoTarget.
Import Demo.

Lemma train_without_target_witness :
  (exists e, (train unlabelled_batch (fresh 0.5 0.3)).2 = Raise e)
  /\ ((exists Xy, (prepare_data unlabelled_batch (fresh 0.5 0.3)).2 = Ok Xy) ->
      (train unlabelled_batch (fresh 0.5 0.3)).2 = Raise NoTargetVariable)
  /\ (forall e, (prepare_data unlabelled_batch (fresh 0.5 0.3)).2 = Raise e ->
                (train unlabelled_batch (fresh 0.5 0.3)).2 = Raise e)
  /\ same_models (fresh 0.5 0.3) (train unlabelled_batch (fresh 0.5 0.3)).1.
Proof.
  apply (train_without_target_fails unlabelled_batch (fresh 0.5 0.3)); reflexivity.
Defined.

(** The witness batch does reach the target check. *)
Example unlabelled_batch_has_no_target :
  (train unlabelled_batch (fresh 0.5 0.3)).2 = Raise NoTargetVariable.
Proof. vm_compute. reflexivity. Qed.

(** A batch with neither a target column nor any declared feature column
    fails in data preparation, before the target is looked at. *)
Lemma train_without_features_raises_no_usable_features :
  id_only_batch !! "failure_probability" = None
  /\ id_only_batch !! "incident_occurred" = None
  /\ (train id_only_batch (fresh 0.5 0.3)).2 = Raise NoUsableFeatures
  /\ (train id_only_batch (fresh 0.5 0.3)).2 <> Raise NoTargetVariable.
Proof.
  split; [reflexivity|]. split; [reflexivity|].
  assert (Hr : (train id_only_batch (fresh 0.5 0.3)).2 = Raise NoUsableFeatures)
    by (vm_compute; reflexivity).
  split; [exact Hr|]. rewrite Hr. discriminate.
Qed.

End DemoNoTarget.

(** ** Inference and the fitted state *)

Section FrozenState.
Context `{Pandas, Clock, Sklearn}.

Lemma categorical_features_not_assigned :
  Forall (fun k => k ∉ ("age_years" :: derived_columns)) categorical_features.
Proof. apply (bool_decide_unpack _). vm_compute. exact I. Qed.

(** [predict] changes the predictor only through [prepare_data]. *)
Lemma predict_state (df : DataFrame) (rc : bool) (st : predictor) :
  (predict df rc st).1 = if is_trained st then (prepare_data df st).1 else st.
Proof.
  unfold predict, mbind, M_bind, get_self, raise, lift, mret, M_ret. cbn beta iota.
  destruct (is_trained st); cbn [negb]; [|reflexivity].
  destruct (prepare_data df st) as [st1 [[X y]|e]]; [|reflexivity].
  destruct (model_predict (random_forest st1) X) as [rf|e]; [|reflexivity].
  destruct (model_predict (gradient_boosting st1) X) as [gb|e]; reflexivity.
Qed.

(** Single-asset inference changes the predictor only through [predict]. *)
Lemma predict_single_pipeline_state (pipeline_data : Dict) (st : predictor) :
  (predict_single_pipeline pipeline_data st).1
  = (predict ((fun v => [v]) <$> pipeline_data) true st).1.
Proof.
  unfold predict_single_pipeline, mbind, M_bind, lift, mret, M_ret. cbn beta iota.
  destruct (predict ((fun v => [v]) <$> pipeline_data) true st) as [st1 [r|e]];
    [|reflexivity].
  cbn [fst].
  destruct (first (failure_probability r)) as [p|e]; [|reflexivity].
  destruct (confidence_score r) as [[|c cs]|];
    (destruct (_generate_recommendations p pipeline_data) as [recs|e]; [|reflexivity]);
    (destruct (_estimate_failure_date p pipeline_data) as [date|e]; reflexivity).
Qed.

(** C10 (amended): an inference call leaves the scaler, the regressors, the
    importances, the trained flag and every encoder that is already fitted
    unchanged; when every categorical attribute of the batch already has an
    encoder, among them attributes whose values were never seen in training,
    the encoders are unchanged altogether.  Single-asset inference changes
    the predictor exactly as batch inference on its one-row batch. *)
Theorem inference_keeps_fitted_state (df : DataFrame) (rc : bool) (st : predictor) :
  same_models st (predict df rc st).1
  /\ scaler (predict df rc st).1 = scaler st
  /\ (forall f classes,
        label_encoders st !! f = Some classes ->
        label_encoders (predict df rc st).1 !! f = Some classes)
  /\ ((forall f, f ∈ categorical_features -> is_Some (df !! f) ->
                 is_Some (label_encoders st !! f)) ->
      label_encoders (predict df rc st).1 = label_encoders st)
  /\ (forall pipeline_data : Dict,
        (predict_single_pipeline pipeline_data st).1
        = (predict ((fun v => [v]) <$> pipeline_data) true st).1).
Proof.
  assert (Hcore :
    same_models st (predict df rc st).1
    /\ scaler (predict df rc st).1 = scaler st
    /\ only_new_encoders categorical_features (engineer_features df) st
         (predict df rc st).1).
  { rewrite predict_state. destruct (is_trained st) eqn:Htr.
    - destruct (prepare_data df st) as [st' r] eqn:Hprep. cbn [fst].
      apply prepare_data_effect in Hprep as (Hm & Hs & Hnew & _).
      split; [exact Hm|]. split; [exact (Hs Htr) | exact Hnew].
    - split; [apply same_models_refl|]. split; [reflexivity|].
      apply only_new_encoders_refl. }
  destruct Hcore as (Hm & Hs & Hkeep & Hnew).
  split; [exact Hm|]. split; [exact Hs|]. split; [exact Hkeep|]. split.
  - intros Hall. apply map_eq. intros f.
    destruct (label_encoders st !! f) as [classes|] eqn:Hf; [apply Hkeep, Hf|].
    destruct (label_encoders (predict df rc st).1 !! f) as [classes|] eqn:Hf';
      [|reflexivity].
    exfalso. destruct (Hnew f Hf) as [Hin Hcol]; [eauto|].
    pose proof categorical_features_not_assigned as Hcat.
    rewrite Forall_forall in Hcat.
    rewrite (engineer_features_frame df f (Hcat f Hin)) in Hcol.
    destruct (Hall f Hin Hcol) as [classes' Hsome]. congruence.
  - intros pipeline_data. apply predict_single_pipeline_state.
Qed.

End FrozenState.

Section DemoFrozenState.
Import Demo.

Lemma inference_keeps_fitted_state_witness :
  label_encoders (predict titanium_frame true trained_on_materials).1
  = label_encoders trained_on_materials.
Proof.
  destruct (inference_keeps_fitted_state titanium_frame true trained_on_materials)
    as (_ & _ & _ & Hsame & _).
  apply Hsame. intros f Hin [col Hcol].
  destruct (decide (f = "material")) as [->|Hne].
  - eexists. vm_compute. reflexivity.
  - unfold titanium_frame in Hcol.
    rewrite lookup_singleton_ne in Hcol by congruence. discriminate.
Defined.

(** A predictor trained on a batch without the column [material] has no
    encoder for it; one inference call on a batch with that column fits
    and stores one. *)
Lemma inference_can_fit_a_new_encoder :
  is_trained (trained 0.5 0.3) = true
  /\ label_encoders (trained 0.5 0.3) !! "material" = None
  /\ label_encoders (predict hdpe_batch true (trained 0.5 0.3)).1 !! "material"
     = Some ["HDPE"]
  /\ label_encoders (predict hdpe_batch true (trained 0.5 0.3)).1
     <> label_encoders (trained 0.5 0.3).
Proof.
  assert (Hbefore : label_encoders (trained 0.5 0.3) !! "material" = None)
    by (vm_compute; reflexivity).
  assert (Hafter :
    label_encoders (predict hdpe_batch true (trained 0.5 0.3)).1 !! "material"
    = Some ["HDPE"]) by (vm_compute; reflexivity).
  split; [vm_compute; reflexivity|]. split; [exact Hbefore|]. split; [exact Hafter|].
  intros Heq. rewrite Heq, Hbefore in Hafter. discriminate.
Qed.

End DemoFrozenState.

(** * Further properties *)

(** ** Recommendations *)

Section Recommendations.
Local Open Scope R_scope.

Lemma gt_not_number (pipeline_data : Dict) (key : string) (c : R) :
  ~ numeric_or_absent pipeline_data key ->
  gt (get_or_zero pipeline_data key) c = Raise TypeError.
Proof.
  unfold numeric_or_absent, get_or_zero.
  destruct (pipeline_data !! key) as [[x|s|t|]|]; cbn; intros Hn;
    first [reflexivity | exfalso; apply Hn; exact I].
Qed.

Lemma numeric_or_absent_cases (pipeline_data : Dict) (key : string) :
  numeric_or_absent pipeline_data key \/ ~ numeric_or_absent pipeline_data key.
Proof.
  unfold numeric_or_absent.
  destruct (pipeline_data !! key) as [[x|s|t|]|]; first [left; exact I | right; intros []].
Qed.

(** X1: [_generate_recommendations] returns exactly when age_years and
    corrosion_rate are each a number or missing, whatever the probability;
    on any other record it raises [TypeError]. *)
Theorem generate_recommendations_type_error (p : R) (pipeline_data : Dict) :
  (numeric_or_absent pipeline_data "age_years"
   /\ numeric_or_absent pipeline_data "corrosion_rate"
   <-> exists recs, _generate_recommendations p pipeline_data = Ok recs)
  /\ (~ (numeric_or_absent pipeline_data "age_years"
         /\ numeric_or_absent pipeline_data "corrosion_rate") ->
      _generate_recommendations p pipeline_data = Raise TypeError).
Proof.
  assert (Hraise :
    ~ (numeric_or_absent pipeline_data "age_years"
       /\ numeric_or_absent pipeline_data "corrosion_rate") ->
    _generate_recommendations p pipeline_data = Raise TypeError).
  { intros Hnot. unfold _generate_recommendations.
    destruct (numeric_or_absent_cases pipeline_data "age_years") as [Hage|Hage].
    - rewrite (gt_number _ _ _ Hage). unfold mbind, result_bind.
      rewrite gt_not_number; [reflexivity|]. intros Hcorr. apply Hnot. split; assumption.
    - rewrite (gt_not_number _ _ _ Hage). reflexivity. }
  split; [split|exact Hraise].
  - intros [Hage Hcorr]. unfold _generate_recommendations.
    rewrite (gt_number _ _ _ Hage), (gt_number _ _ _ Hcorr).
    eexists. reflexivity.
  - intros [recs Hrecs].
    destruct (numeric_or_absent_cases pipeline_data "age_years") as [Hage|Hage];
      destruct (numeric_or_absent_cases pipeline_data "corrosion_rate") as [Hcorr|Hcorr];
      [split; assumption | | |];
      rewrite Hraise in Hrecs by (intros [? ?]; contradiction); discriminate.
Qed.

(** Membership of a literal line in a literal list against a condition on
    reals that the context decides. *)
Ltac line_iff :=
  match goal with
  | |- (?x ∈ ?l) <-> _ =>
      let b := eval vm_compute in (bool_decide (x ∈ l)) in
      lazymatch b with
      | true =>
          split;
          [intros _; lra
          |intros _; apply (bool_decide_unpack (x ∈ l)); vm_compute; exact I]
      | false =>
          let Hin := fresh "Hin" in
          split;
          [intros Hin; exfalso; apply (bool_decide_pack (x ∈ l)) in Hin;
           vm_compute in Hin; exact Hin
          |intros ?; exfalso; lra]
      end
  end.

(** X2: when [_generate_recommendations] returns, exactly one block of the
    ladder is present, chosen by the thresholds 0.8, 0.6 and 0.4 (each
    exclusive), the age line is present iff age_years > 30, the corrosion
    line iff corrosion_rate > 0.1, and the list has between 3 and 6 lines. *)
Theorem generate_recommendations_lines
    (p : R) (pipeline_data : Dict) (recs : list string) :
  _generate_recommendations p pipeline_data = Ok recs ->
  ("URGENT: Schedule immediate inspection" ∈ recs <-> 0.8 < p)
  /\ ("Schedule comprehensive inspection within 30 days" ∈ recs <-> 0.6 < p <= 0.8)
  /\ ("Schedule routine inspection within 90 days" ∈ recs <-> 0.4 < p <= 0.6)
  /\ ("Continue standard monitoring schedule" ∈ recs <-> p <= 0.4)
  /\ ("Consider age-related integrity assessment" ∈ recs
      <-> 30 < number_at pipeline_data "age_years")
  /\ ("Implement enhanced corrosion monitoring" ∈ recs
      <-> 0.1 < number_at pipeline_data "corrosion_rate")
  /\ (3 <= length recs <= 6)%nat.
Proof.
  unfold _generate_recommendations, gt, get_or_zero, number_at.
  destruct (pipeline_data !! "age_years") as [[a|?|?|]|];
    destruct (pipeline_data !! "corrosion_rate") as [[c|?|?|]|];
    cbn; try discriminate; real_cases; cbn; intros [= <-];
    (refine (conj _ (conj _ (conj _ (conj _ (conj _ (conj _ _))))));
     [line_iff .. | cbn; lia]).
Qed.

End Recommendations.

Section DemoRecommendations.
Import Demo.
Local Open Scope R_scope.

Lemma generate_recommendations_lines_witness :
  ("URGENT: Schedule immediate inspection" ∈
     ["URGENT: Schedule immediate inspection";
      "Consider pipeline replacement or major repair";
      "Increase monitoring frequency to weekly";
      "Implement emergency response procedures";
      "Consider age-related integrity assessment";
      "Implement enhanced corrosion monitoring"] <-> 0.8 < 0.85)
  /\ ("Consider age-related integrity assessment" ∈
       ["URGENT: Schedule immediate inspection";
        "Consider pipeline replacement or major repair";
        "Increase monitoring frequency to weekly";
        "Implement emergency response procedures";
        "Consider age-related integrity assessment";
        "Implement enhanced corrosion monitoring"]
      <-> 30 < number_at old_corroding_pipeline "age_years").
Proof.
  assert (Hrun : _generate_recommendations 0.85 old_corroding_pipeline
                 = Ok ["URGENT: Schedule immediate inspection";
                       "Consider pipeline replacement or major repair";
                       "Increase monitoring frequency to weekly";
                       "Implement emergency response procedures";
                       "Consider age-related integrity assessment";
                       "Implement enhanced corrosion monitoring"]).
  { assert (Ha : old_corroding_pipeline !! "age_years" = Some (VNum 31))
      by reflexivity.
    assert (Hc : old_corroding_pipeline !! "corrosion_rate" = Some (VNum 0.15))
      by reflexivity.
    unfold _generate_recommendations, gt, get_or_zero. rewrite Ha, Hc.
    cbn. real_cases; cbn; first [reflexivity | lra]. }
  destruct (generate_recommendations_lines 0.85 old_corroding_pipeline _ Hrun)
    as (Hurgent & _ & _ & _ & Hage & _).
  split; [exact Hurgent | exact Hage].
Defined.

End DemoRecommendations.

(** ** Single-asset inference *)

Section SinglePipeline.
Context `{Pandas, Clock, Sklearn}.
Local Open Scope R_scope.

(** What a successful [predict_single_pipeline] is made of. *)
Lemma predict_single_pipeline_returns
    (pipeline_data : Dict) (st st' : predictor) (r : pipeline_prediction) :
  predict_single_pipeline pipeline_data st = (st', Ok r) ->
  exists pr p_rf p_gb rfs gbs,
    predict ((fun v => [v]) <$> pipeline_data) true st = (st', Ok pr)
    /\ individual_predictions pr = (p_rf :: rfs, p_gb :: gbs)
    /\ failure_prob r = p_rf * 0.6 + p_gb * 0.4
    /\ confidence_value r = agreement p_rf p_gb
    /\ _generate_recommendations (failure_prob r) pipeline_data = Ok (recommendations r)
    /\ _estimate_failure_date (failure_prob r) pipeline_data
       = Ok (predicted_failure_date r)
    /\ risk_level r = _get_risk_level (failure_prob r)
    /\ pipeline_id r = pipeline_data !! "id"
    /\ input_parameters r = pipeline_data.
Proof.
  unfold predict_single_pipeline, mbind, M_bind, lift, mret, M_ret. cbn beta iota.
  destruct (predict ((fun v => [v]) <$> pipeline_data) true st) as [st1 [pr|e]] eqn:Hp;
    [|discriminate].
  destruct (predict_returns _ _ _ _ _ Hp) as [Hfp Hconf].
  destruct (individual_predictions pr) as [rf gb] eqn:Hind. cbn [fst snd] in *.
  rewrite Hfp, Hconf.
  destruct rf as [|p_rf rfs]; [cbn; discriminate|].
  destruct gb as [|p_gb gbs]; [cbn; discriminate|].
  rewrite confidence_closed_form. cbn [ensemble_pred zip_with first].
  destruct (_generate_recommendations (p_rf * 0.6 + p_gb * 0.4) pipeline_data)
    as [recs|e] eqn:Hrecs; [|discriminate].
  destruct (_estimate_failure_date (p_rf * 0.6 + p_gb * 0.4) pipeline_data)
    as [date|e] eqn:Hdate; [|discriminate].
  intros [= <- <-]. cbn.
  exists pr, p_rf, p_gb, rfs, gbs. repeat split; assumption.
Qed.

(** X3: in every result of single-asset inference, the estimated failure
    date is null exactly when the risk level is low; both rules cut at
    0.3. *)
Theorem failure_date_null_iff_low_risk
    (pipeline_data : Dict) (st st' : predictor) (r : pipeline_prediction) :
  predict_single_pipeline pipeline_data st = (st', Ok r) ->
  (predicted_failure_date r = None <-> risk_level r = "low")
  /\ (risk_level r = "low" <-> failure_prob r < 0.3).
Proof.
  intros Hr.
  destruct (predict_single_pipeline_returns _ _ _ _ Hr)
    as (pr & p_rf & p_gb & rfs & gbs & _ & _ & _ & _ & _ & Hdate & -> & _).
  unfold _estimate_failure_date in Hdate. unfold _get_risk_level.
  destruct (decide (failure_prob r < 0.3)) as [Hlow|Hhigh].
  - injection Hdate as <-. real_cases; try lra. repeat split; auto.
  - unfold mbind, result_bind in Hdate.
    destruct (gt (get_or_zero pipeline_data "age_years") 25); [|discriminate].
    destruct (gt (get_or_zero pipeline_data "corrosion_rate") 0.1); [|discriminate].
    injection Hdate as <-.
    real_cases; try lra; repeat split; intros; first [discriminate | lra].
Qed.

(** X4: the probability of a single-asset result is the weighted average
    of the two regressors on its one row, its confidence is their clipped
    agreement and lies in [0.1, 1.0], and the result echoes the request
    with its id. *)
Theorem single_prediction_is_first_row
    (pipeline_data : Dict) (st st' : predictor) (r : pipeline_prediction) :
  predict_single_pipeline pipeline_data st = (st', Ok r) ->
  exists pr p_rf p_gb rfs gbs,
    predict ((fun v => [v]) <$> pipeline_data) true st = (st', Ok pr)
    /\ individual_predictions pr = (p_rf :: rfs, p_gb :: gbs)
    /\ failure_prob r = 0.6 * p_rf + 0.4 * p_gb
    /\ confidence_value r = agreement p_rf p_gb
    /\ 0.1 <= confidence_value r <= 1.0
    /\ pipeline_id r = pipeline_data !! "id"
    /\ input_parameters r = pipeline_data.
Proof.
  intros Hr.
  destruct (predict_single_pipeline_returns _ _ _ _ Hr)
    as (pr & p_rf & p_gb & rfs & gbs & Hp & Hind & Hfp & Hc & _ & _ & _ & Hid & Hin).
  exists pr, p_rf, p_gb, rfs, gbs.
  split; [exact Hp|]. split; [exact Hind|]. split; [lra|]. split; [exact Hc|].
  split; [rewrite Hc; apply agreement_bounds|]. split; assumption.
Qed.

(** X5: single-asset inference cannot return for a record whose age_years
    or corrosion_rate is present without being a number (null, a string, a
    date): whatever the predictor, the call raises. *)
Theorem single_prediction_needs_numbers (pipeline_data : Dict) (st : predictor) :
  ~ (numeric_or_absent pipeline_data "age_years"
     /\ numeric_or_absent pipeline_data "corrosion_rate") ->
  exists e, (predict_single_pipeline pipeline_data st).2 = Raise e.
Proof.
  intros Hnot.
  destruct (predict_single_pipeline pipeline_data st) as [st' [r|e]] eqn:Hr;
    [|eexists; reflexivity].
  exfalso.
  destruct (predict_single_pipeline_returns _ _ _ _ Hr)
    as (_ & _ & _ & _ & _ & _ & _ & _ & _ & Hrecs & _).
  unfold _generate_recommendations in Hrecs.
  destruct (numeric_or_absent_cases pipeline_data "age_years") as [Hage|Hage].
  - rewrite (gt_number _ _ _ Hage) in Hrecs. unfold mbind, result_bind in Hrecs.
    rewrite gt_not_number in Hrecs; [discriminate|].
    intros Hcorr. apply Hnot. split; assumption.
  - rewrite (gt_not_number _ _ _ Hage) in Hrecs. discriminate.
Qed.

End SinglePipeline.

Section DemoSinglePipeline.
Import Demo.
Local Open Scope R_scope.

Lemma demo_predict_aged :
  predict ((fun v => [v]) <$> aged_pipeline) true (trained 0.5 0.3)
  = (trained 0.5 0.3,
     Ok {| failure_probability := ensemble_pred [0.5] [0.3];
           confidence_score := Some (confidence [0.5] [0.3]);
           individual_predictions := ([0.5], [0.3]);
           model_version := "1.0" |}).
Proof. vm_compute. reflexivity. Qed.

(** A run of single-asset inference on the stand-ins that returns. *)
Lemma demo_single_prediction :
  exists r, predict_single_pipeline aged_pipeline (trained 0.5 0.3)
            = (trained 0.5 0.3, Ok r).
Proof.
  assert (Hage : numeric_or_absent aged_pipeline "age_years") by exact I.
  assert (Hcorr : numeric_or_absent aged_pipeline "corrosion_rate") by exact I.
  unfold predict_single_pipeline, mbind at 1, M_bind at 1.
  rewrite demo_predict_aged.
  unfold mbind, M_bind, lift, mret, M_ret. cbn beta iota.
  cbn [failure_probability confidence_score ensemble_pred confidence pred_std
       zip_with map first].
  assert (Hrecs : exists recs,
             _generate_recommendations (0.5 * 0.6 + 0.3 * 0.4) aged_pipeline = Ok recs).
  { unfold _generate_recommendations.
    rewrite (gt_number _ _ _ Hage), (gt_number _ _ _ Hcorr). eexists. reflexivity. }
  assert (Hdate : exists date,
             _estimate_failure_date (0.5 * 0.6 + 0.3 * 0.4) aged_pipeline = Ok date).
  { unfold _estimate_failure_date.
    destruct (decide (0.5 * 0.6 + 0.3 * 0.4 < 0.3)) as [Hlow|_]; [lra|].
    rewrite (gt_number _ _ _ Hage), (gt_number _ _ _ Hcorr). eexists. reflexivity. }
  destruct Hrecs as [recs ->]. destruct Hdate as [date ->].
  eexists. reflexivity.
Qed.

Lemma failure_date_null_iff_low_risk_witness :
  exists r,
    predict_single_pipeline aged_pipeline (trained 0.5 0.3) = (trained 0.5 0.3, Ok r)
    /\ (predicted_failure_date r = None <-> risk_level r = "low")
    /\ (risk_level r = "low" <-> failure_prob r < 0.3).
Proof.
  destruct demo_single_prediction as [r Hr]. exists r. split; [exact Hr|].
  exact (failure_date_null_iff_low_risk aged_pipeline _ _ r Hr).
Defined.

Lemma single_prediction_is_first_row_witness :
  exists r,
    predict_single_pipeline aged_pipeline (trained 0.5 0.3) = (trained 0.5 0.3, Ok r)
    /\ exists pr p_rf p_gb rfs gbs,
        predict ((fun v => [v]) <$> aged_pipeline) true (trained 0.5 0.3)
        = (trained 0.5 0.3, Ok pr)
        /\ individual_predictions pr = (p_rf :: rfs, p_gb :: gbs)
        /\ failure_prob r = 0.6 * p_rf + 0.4 * p_gb
        /\ confidence_value r = agreement p_rf p_gb
        /\ 0.1 <= confidence_value r <= 1.0
        /\ pipeline_id r = aged_pipeline !! "id"
        /\ input_parameters r = aged_pipeline.
Proof.
  destruct demo_single_prediction as [r Hr]. exists r. split; [exact Hr|].
  exact (single_prediction_is_first_row aged_pipeline _ _ r Hr).
Defined.

Lemma single_prediction_needs_numbers_witness :
  exists e, (predict_single_pipeline null_age_pipeline (trained 0.5 0.3)).2 = Raise e.
Proof.
  apply (single_prediction_needs_numbers null_age_pipeline (trained 0.5 0.3)).
  intros [Hage _]. exact Hage.
Defined.

End DemoSinglePipeline.

(** ** Training *)

Section Training.
Context `{Pandas, Clock, Sklearn}.

Ltac unfold_train :=
  unfold fit_random_forest, fit_gradient_boosting, mbind, M_bind, mret, M_ret,
    raise, lift, get_self, set_random_forest, set_gradient_boosting,
    set_feature_importance, set_is_trained; cbn beta iota.

(** One turn of the training loop touches its own regressor and, when it
    returns, its own entry of the importances. *)
Lemma fit_random_forest_effect
    (split : matrix * matrix * list value * list value) (names : list string)
    (st st' : predictor) (r : result Scores) :
  fit_random_forest split names st = (st', r) ->
  scaler st' = scaler st
  /\ label_encoders st' = label_encoders st
  /\ is_trained st' = is_trained st
  /\ match r with
     | Ok _ => exists imp,
         feature_importance st'
         = <["random_forest" := zip names imp]> (feature_importance st)
     | Raise _ => True
     end.
Proof.
  unfold_train.
  destruct (fit_and_score (random_forest st) split) as [m [[s imp]|e]];
    cbn beta iota; intros [= <- <-]; cbn [scaler label_encoders is_trained
                                          feature_importance];
    repeat split.
  exists imp. reflexivity.
Qed.

Lemma fit_gradient_boosting_effect
    (split : matrix * matrix * list value * list value) (names : list string)
    (st st' : predictor) (r : result Scores) :
  fit_gradient_boosting split names st = (st', r) ->
  scaler st' = scaler st
  /\ label_encoders st' = label_encoders st
  /\ is_trained st' = is_trained st
  /\ match r with
     | Ok _ => exists imp,
         feature_importance st'
         = <["gradient_boosting" := zip names imp]> (feature_importance st)
     | Raise _ => True
     end.
Proof.
  unfold_train.
  destruct (fit_and_score (gradient_boosting st) split) as [m [[s imp]|e]];
    cbn beta iota; intros [= <- <-]; cbn [scaler label_encoders is_trained
                                          feature_importance];
    repeat split.
  exists imp. reflexivity.
Qed.

(** After [prepare_data], [train] touches the regressors, the importances
    and the flag only; the flag is set at the very end. *)
Lemma train_effect (df : DataFrame) (st st' : predictor) (r : result (Scores * Scores)) :
  train df st = (st', r) ->
  scaler st' = scaler (prepare_data df st).1
  /\ label_encoders st' = label_encoders (prepare_data df st).1
  /\ match r with
     | Ok _ =>
         is_trained st' = true
         /\ exists imp_rf imp_gb,
             feature_importance st'
             = <["gradient_boosting" := zip (available_features df) imp_gb]>
                 (<["random_forest" := zip (available_features df) imp_rf]>
                    (feature_importance st))
     | Raise _ => is_trained st' = is_trained st
     end.
Proof.
  unfold train. generalize (available_features df). intros names.
  unfold mbind at 1, M_bind at 1.
  destruct (prepare_data df st) as [st1 [[X y]|e]] eqn:Hprep;
    pose proof (prepare_data_effect _ _ _ _ Hprep) as ((_ & _ & Hfi & Htr) & _);
    cbn [fst].
  2:{ intros [= <- <-]. repeat split; assumption. }
  destruct y as [y|].
  2:{ unfold raise. intros [= <- <-]. repeat split; assumption. }
  unfold mbind at 1, M_bind at 1, lift at 1.
  destruct (train_test_split X y) as [split|e].
  2:{ intros [= <- <-]. repeat split; assumption. }
  unfold mbind at 1, M_bind at 1.
  destruct (fit_random_forest split names st1) as [st2 r2] eqn:Hrf.
  apply fit_random_forest_effect in Hrf as (Hs2 & Hle2 & Htr2 & Hfi2).
  destruct r2 as [s_rf|e].
  2:{ intros [= <- <-]. repeat split; congruence. }
  destruct Hfi2 as [imp_rf Hfi2].
  unfold mbind at 1, M_bind at 1.
  destruct (fit_gradient_boosting split names st2) as [st3 r3] eqn:Hgb.
  apply fit_gradient_boosting_effect in Hgb as (Hs3 & Hle3 & Htr3 & Hfi3).
  destruct r3 as [s_gb|e].
  2:{ intros [= <- <-]. repeat split; congruence. }
  destruct Hfi3 as [imp_gb Hfi3].
  unfold mbind, M_bind, set_is_trained, mret, M_ret.
  intros [= <- <-]. cbn [scaler label_encoders is_trained feature_importance].
  split; [congruence|]. split; [congruence|]. split; [reflexivity|].
  exists imp_rf, imp_gb. rewrite Hfi3, Hfi2, Hfi. reflexivity.
Qed.

(** What a turn of the training loop that returns has recorded: the
    regressor, the scores and the importances are the ones [fit_and_score]
    gave for the regressor the predictor held. *)
Lemma fit_random_forest_returns
    (split : matrix * matrix * list value * list value) (names : list string)
    (st st' : predictor) (s : Scores) :
  fit_random_forest split names st = (st', Ok s) ->
  exists imp,
    fit_and_score (random_forest st) split = (random_forest st', Ok (s, imp))
    /\ gradient_boosting st' = gradient_boosting st
    /\ feature_importance st'
       = <["random_forest" := zip names imp]> (feature_importance st).
Proof.
  unfold_train.
  destruct (fit_and_score (random_forest st) split) as [m [[s' imp]|e]];
    cbn beta iota; intros [= <- <-].
  exists imp. cbn [random_forest gradient_boosting feature_importance].
  repeat split.
Qed.

Lemma fit_gradient_boosting_returns
    (split : matrix * matrix * list value * list value) (names : list string)
    (st st' : predictor) (s : Scores) :
  fit_gradient_boosting split names st = (st', Ok s) ->
  exists imp,
    fit_and_score (gradient_boosting st) split = (gradient_boosting st', Ok (s, imp))
    /\ random_forest st' = random_forest st
    /\ feature_importance st'
       = <["gradient_boosting" := zip names imp]> (feature_importance st).
Proof.
  unfold_train.
  destruct (fit_and_score (gradient_boosting st) split) as [m [[s' imp]|e]];
    cbn beta iota; intros [= <- <-].
  exists imp. cbn [random_forest gradient_boosting feature_importance].
  repeat split.
Qed.

(** A call of [train] that returns went through every stage: the data were
    prepared with a target, split, and each regressor was fitted and scored
    on that split. *)
Lemma train_returns (df : DataFrame) (st st' : predictor) (scores : Scores * Scores) :
  train df st = (st', Ok scores) ->
  exists st1 X y split imp_rf imp_gb,
    prepare_data df st = (st1, Ok (X, Some y))
    /\ train_test_split X y = Ok split
    /\ fit_and_score (random_forest st1) split
       = (random_forest st', Ok (scores.1, imp_rf))
    /\ fit_and_score (gradient_boosting st1) split
       = (gradient_boosting st', Ok (scores.2, imp_gb))
    /\ feature_importance st'
       = <["gradient_boosting" := zip (available_features df) imp_gb]>
           (<["random_forest" := zip (available_features df) imp_rf]>
              (feature_importance st1)).
Proof.
  unfold train. generalize (available_features df). intros names.
  unfold mbind at 1, M_bind at 1.
  destruct (prepare_data df st) as [st1 [[X y]|e]] eqn:Hprep; [|intros [=]].
  destruct y as [y|]; [|unfold raise; intros [=]].
  unfold mbind at 1, M_bind at 1, lift at 1.
  destruct (train_test_split X y) as [split|e] eqn:Hsplit; [|intros [=]].
  unfold mbind at 1, M_bind at 1.
  destruct (fit_random_forest split names st1) as [st2 [s_rf|e]] eqn:Hrf;
    [|intros [=]].
  apply fit_random_forest_returns in Hrf as (imp_rf & Hrf & Hgb2 & Hfi2).
  unfold mbind at 1, M_bind at 1.
  destruct (fit_gradient_boosting split names st2) as [st3 [s_gb|e]] eqn:Hgb;
    [|intros [=]].
  apply fit_gradient_boosting_returns in Hgb as (imp_gb & Hgb & Hrf3 & Hfi3).
  unfold mbind, M_bind, set_is_trained, mret, M_ret.
  intros [= <- <-].
  cbn [random_forest gradient_boosting feature_importance fst snd].
  exists st1, X, y, split, imp_rf, imp_gb.
  split; [reflexivity|]. split; [exact Hsplit|].
  split; [rewrite Hrf3; exact Hrf|].
  split; [rewrite <- Hgb2; exact Hgb|].
  rewrite Hfi3, Hfi2. reflexivity.
Qed.

(** X6: [train] sets the trained flag exactly when it returns.  After a
    normal return the flag is true, [get_feature_importance] answers, and
    the predictor holds what [fit_and_score] gave on the split of the
    prepared data: the two fitted regressors, the returned scores, and for
    each regressor its importances, recorded under the feature columns of
    the batch.  After any exception the flag is what it was. *)
Theorem train_sets_flag_iff_returns (df : DataFrame) (st : predictor) :
  (forall st' scores,
      train df st = (st', Ok scores) ->
      is_trained st' = true
      /\ get_feature_importance st' = Ok (feature_importance st')
      /\ exists st1 X y split imp_rf imp_gb,
          prepare_data df st = (st1, Ok (X, Some y))
          /\ train_test_split X y = Ok split
          /\ fit_and_score (random_forest st1) split
             = (random_forest st', Ok (scores.1, imp_rf))
          /\ fit_and_score (gradient_boosting st1) split
             = (gradient_boosting st', Ok (scores.2, imp_gb))
          /\ feature_importance st' !! "random_forest"
             = Some (zip (available_features df) imp_rf)
          /\ feature_importance st' !! "gradient_boosting"
             = Some (zip (available_features df) imp_gb))
  /\ (forall st' e, train df st = (st', Raise e) -> is_trained st' = is_trained st).
Proof.
  split.
  - intros st' scores Ht.
    pose proof (train_effect _ _ _ _ Ht) as (_ & _ & Htr & _).
    apply train_returns in Ht
      as (st1 & X & y & split & imp_rf & imp_gb & Hprep & Hsplit & Hrf & Hgb & Hfi).
    split; [exact Htr|]. split.
    + unfold get_feature_importance. rewrite Htr. reflexivity.
    + exists st1, X, y, split, imp_rf, imp_gb.
      split; [exact Hprep|]. split; [exact Hsplit|].
      split; [exact Hrf|]. split; [exact Hgb|].
      rewrite Hfi. split.
      * rewrite lookup_insert_ne by discriminate. apply lookup_insert_eq.
      * apply lookup_insert_eq.
  - intros st' e Ht. apply train_effect in Ht as (_ & _ & Htr). exact Htr.
Qed.

(** X7: calling [train] on a predictor that is already trained does not
    refit the scaler and keeps every encoder it has: the new batch is
    transformed with the old statistics and the old classes. *)
Theorem train_again_keeps_scaler_and_encoders (df : DataFrame) (st : predictor) :
  is_trained st = true ->
  scaler (train df st).1 = scaler st
  /\ (forall f classes,
        label_encoders st !! f = Some classes ->
        label_encoders (train df st).1 !! f = Some classes).
Proof.
  intros Htr.
  destruct (train df st) as [st' r] eqn:Ht. cbn [fst].
  apply train_effect in Ht as (Hs & Hle & _).
  destruct (prepare_data df st) as [st1 r1] eqn:Hprep. cbn [fst] in *.
  apply prepare_data_effect in Hprep as (_ & Hscaler & [Hkeep _] & _).
  split; [rewrite Hs; exact (Hscaler Htr)|].
  intros f classes Hf. rewrite Hle. apply Hkeep, Hf.
Qed.

(** [get_feature_importance] before training. *)
Lemma get_feature_importance_untrained (st : predictor) :
  is_trained st = false -> get_feature_importance st = Raise ImportanceNotTrained.
Proof. intros Hu. unfold get_feature_importance. rewrite Hu. reflexivity. Qed.

End Training.

Section DemoTraining.
Import Demo.

Lemma train_again_witness :
  scaler (train material_batch (trained 0.5 0.3)).1 = scaler (trained 0.5 0.3)
  /\ (forall f classes,
        label_encoders (trained 0.5 0.3) !! f = Some classes ->
        label_encoders (train material_batch (trained 0.5 0.3)).1 !! f = Some classes).
Proof.
  apply (train_again_keeps_scaler_and_encoders material_batch (trained 0.5 0.3)).
  vm_compute. reflexivity.
Defined.

End DemoTraining.

(** ** Feature engineering: columns kept and derivations skipped *)

Section EngineeringSkips.
Context `{Pandas, Clock}.

Lemma later_steps_write_any (df : DataFrame) :
  Forall (fun s => exists c, writes c s) (later_steps df).
Proof.
  eapply Forall_impl; [apply later_steps_write|].
  cbn. intros s [c [_ Hw]]. exists c. exact Hw.
Qed.

(** Steps that only assign columns never drop one. *)
Lemma run_steps_keeps_columns (steps : list step) (d : DataFrame) (k : string) :
  Forall (fun s => exists c, writes c s) steps ->
  is_Some (d !! k) -> is_Some (run_steps steps d !! k).
Proof.
  intros Hsteps. revert d.
  induction Hsteps as [|s steps [c Hw] _ IH]; intros d Hk; [exact Hk|].
  cbn. destruct (s d) as [d'|e] eqn:Hs; [|exact Hk].
  apply IH. destruct (Hw d d' Hs) as [->|[r ->]]; [exact Hk|].
  destruct (decide (c = k)) as [->|Hne].
  - rewrite lookup_insert_eq. eauto.
  - rewrite lookup_insert_ne by exact Hne. exact Hk.
Qed.

(** X8: [engineer_features] returns a frame with every column of its input,
    and every column other than age_years and the nine derived names comes
    out with the cells it went in with, also when a derivation raises
    midway. *)
Theorem engineer_features_keeps_columns (df : DataFrame) :
  (forall k, is_Some (df !! k) -> is_Some (engineer_features df !! k))
  /\ (forall k, k ∉ "age_years" :: derived_columns ->
                engineer_features df !! k = df !! k).
Proof.
  split.
  - intros k Hk. unfold engineer_features.
    apply run_steps_keeps_columns; [|exact Hk].
    constructor; [exists "age_years"; apply age_step_writes|].
    apply later_steps_write_any.
  - intros k. apply engineer_features_frame.
Qed.

Lemma run_steps_spared (k : string) (steps : list step) (d : DataFrame) :
  Forall (spares k) steps -> run_steps steps d !! k = d !! k.
Proof.
  intros Hsteps. revert d.
  induction Hsteps as [|s steps Hs _ IH]; intros d; [reflexivity|].
  cbn. destruct (s d) as [d'|e] eqn:Hsd; [|reflexivity].
  rewrite IH. destruct Hs as [[c [Hne Hw]]|Hid].
  - destruct (Hw d d' Hsd) as [->|[r ->]]; [reflexivity|].
    apply lookup_insert_ne. exact Hne.
  - rewrite Hid in Hsd. injection Hsd as <-. reflexivity.
Qed.

Lemma environmental_steps_spare (df : DataFrame) (k : string) :
  k ∉ ["temperature_avg_normalized"; "soil_resistivity_normalized";
        "depth_avg_normalized"; "environmental_stress"] ->
  Forall (spares k) (environmental_steps df).
Proof.
  intros Hk.
  assert (Hne : forall c,
             c ∈ ["temperature_avg_normalized"; "soil_resistivity_normalized";
                   "depth_avg_normalized"; "environmental_stress"] -> c <> k)
    by (intros c Hc ->; contradiction).
  unfold environmental_steps, environmental_factors. cbn [filter list_filter].
  repeat case_decide;
    repeat (apply Forall_cons_2;
            [left; eexists;
             (split; [|first [apply normalize_step_writes
                             | apply environmental_stress_step_writes]]);
             apply Hne; apply (bool_decide_unpack _); vm_compute; exact I
            |]);
    apply Forall_nil_2.
Qed.

(** Every assignment of [engineer_features] spares [k], given that the one
    which assigns [k] has its guard off. *)
Ltac spare_steps :=
  repeat first
    [ apply Forall_nil_2
    | apply environmental_steps_spare; apply (bool_decide_unpack _); vm_compute; exact I
    | apply Forall_cons_2;
      [ first
          [ left; eexists;
            (split; [|first [apply age_step_writes
                            | apply pressure_ratio_step_writes
                            | apply wall_thickness_ratio_step_writes
                            | apply corrosion_acceleration_step_writes
                            | apply composite_risk_score_step_writes
                            | apply max_risk_factor_step_writes]]);
            discriminate
          | right; assumption ]
      | ] ].

(** X9: a derivation whose inputs are not all in the batch is skipped: the
    column it would assign comes out as it went in.  This holds for the
    pressure ratio, the wall-thickness ratio, the corrosion acceleration
    (without corrosion_rate), and the composite and maximum risk scores. *)
Theorem missing_inputs_skip_derivation (df : DataFrame) :
  (has_column df "operating_pressure" && has_column df "pressure_rating" = false ->
   engineer_features df !! "pressure_ratio" = df !! "pressure_ratio")
  /\ (has_column df "current_wall_thickness"
      && has_column df "original_wall_thickness" = false ->
      engineer_features df !! "wall_thickness_ratio" = df !! "wall_thickness_ratio")
  /\ (has_column df "corrosion_rate" = false ->
      engineer_features df !! "corrosion_acceleration"
      = df !! "corrosion_acceleration")
  /\ (all_risk_factors df = false ->
      engineer_features df !! "composite_risk_score" = df !! "composite_risk_score"
      /\ engineer_features df !! "max_risk_factor" = df !! "max_risk_factor").
Proof.
  unfold engineer_features, later_steps.
  split; [|split; [|split]].
  - intros Hg.
    assert (forall d, pressure_ratio_step df d = Ok d)
      by (intros d; unfold pressure_ratio_step; rewrite Hg; reflexivity).
    apply run_steps_spared. cbn [app]. spare_steps.
  - intros Hg.
    assert (forall d, wall_thickness_ratio_step df d = Ok d)
      by (intros d; unfold wall_thickness_ratio_step; rewrite Hg; reflexivity).
    apply run_steps_spared. cbn [app]. spare_steps.
  - intros Hg.
    assert (forall d, corrosion_acceleration_step df d = Ok d)
      by (intros d; unfold corrosion_acceleration_step; rewrite Hg; reflexivity).
    apply run_steps_spared. cbn [app]. spare_steps.
  - intros Hg.
    assert (forall d, composite_risk_score_step df d = Ok d)
      by (intros d; unfold composite_risk_score_step; rewrite Hg; reflexivity).
    assert (forall d, max_risk_factor_step df d = Ok d)
      by (intros d; unfold max_risk_factor_step; rewrite Hg; reflexivity).
    split; apply run_steps_spared; cbn [app]; spare_steps.
Qed.

Lemma run_steps_identity (steps : list step) (d : DataFrame) :
  Forall (fun s => forall d, s d = Ok d) steps -> run_steps steps d = d.
Proof.
  intros Hsteps. revert d.
  induction Hsteps as [|s steps Hs _ IH]; intros d; [reflexivity|].
  cbn. rewrite Hs. apply IH.
Qed.

(** X10: a batch that brings no input of any derivation (no installation
    date, not both pressures, not both wall thicknesses, no corrosion rate,
    not all five risk factors, none of the three environmental factors)
    comes out of [engineer_features] unchanged. *)
Theorem engineer_features_without_inputs (df : DataFrame) :
  df !! "installation_date" = None ->
  has_column df "operating_pressure" && has_column df "pressure_rating" = false ->
  has_column df "current_wall_thickness"
  && has_column df "original_wall_thickness" = false ->
  has_column df "corrosion_rate" = false ->
  all_risk_factors df = false ->
  has_column df "temperature_avg" = false ->
  has_column df "soil_resistivity" = false ->
  has_column df "depth_avg" = false ->
  engineer_features df = df.
Proof.
  intros Hdate Hp Hw Hc Hr Ht Hs Hd.
  unfold engineer_features. apply run_steps_identity.
  assert (Henv : environmental_steps df = []).
  { unfold environmental_steps, environmental_factors. cbn [filter list_filter].
    repeat case_decide; first [congruence | reflexivity]. }
  unfold later_steps. rewrite Henv. cbn [app].
  repeat constructor; intros d.
  - unfold age_step. rewrite Hdate. reflexivity.
  - unfold pressure_ratio_step. rewrite Hp. reflexivity.
  - unfold wall_thickness_ratio_step. rewrite Hw. reflexivity.
  - unfold corrosion_acceleration_step. rewrite Hc. reflexivity.
  - unfold composite_risk_score_step. rewrite Hr. reflexivity.
  - unfold max_risk_factor_step. rewrite Hr. reflexivity.
Qed.

End EngineeringSkips.

Section DemoEngineering.
Import Demo.

Lemma engineer_features_without_inputs_witness :
  engineer_features id_only_batch = id_only_batch.
Proof.
  apply (engineer_features_without_inputs id_only_batch); reflexivity.
Defined.

End DemoEngineering.

(** ** Batches without usable features *)

Section NoFeatures.
Context `{Pandas, Clock, Sklearn}.

Lemma features_are_not_derived :
  Forall (fun f => f = "age_years" \/ f ∉ "age_years" :: derived_columns)
    (numerical_features ++ categorical_features).
Proof. apply (bool_decide_unpack _). vm_compute. exact I. Qed.

Lemma categorical_are_features :
  Forall (fun f => f ∈ numerical_features ++ categorical_features) categorical_features.
Proof. apply (bool_decide_unpack _). vm_compute. exact I. Qed.

(** The loop passes over features that are not columns. *)
Lemma encode_features_absent (features : list string) (d : DataFrame) (st : predictor) :
  Forall (fun f => d !! f = None) features ->
  encode_features features d st = (st, Ok d).
Proof.
  induction 1 as [|f features Hf _ IH]; [reflexivity|].
  cbn. unfold mbind, M_bind, encode_feature. rewrite Hf. exact IH.
Qed.

Lemma available_features_none (d : DataFrame) :
  Forall (fun f => d !! f = None) (numerical_features ++ categorical_features) ->
  available_features d = [].
Proof.
  unfold available_features.
  induction 1 as [|f features Hf _ IH]; [reflexivity|].
  cbn. unfold has_column at 1. rewrite Hf.
  rewrite bool_decide_eq_false_2 by (intros [? ?]; discriminate). exact IH.
Qed.

Lemma prepare_data_no_features (df : DataFrame) (st : predictor) :
  Forall (fun f => df !! f = None) (numerical_features ++ categorical_features) ->
  df !! "installation_date" = None ->
  prepare_data df st = (st, Raise NoUsableFeatures).
Proof.
  intros Hnone Hdate.
  assert (Heng : Forall (fun f => engineer_features df !! f = None)
                   (numerical_features ++ categorical_features)).
  { pose proof features_are_not_derived as Hnd.
    rewrite Forall_forall in *. intros f Hf.
    destruct (Hnd f Hf) as [->|Hout].
    - rewrite engineer_features_age_kept by exact Hdate. apply Hnone, Hf.
    - rewrite engineer_features_frame by exact Hout. apply Hnone, Hf. }
  unfold prepare_data, mbind at 1, M_bind at 1.
  rewrite encode_features_absent.
  - rewrite (available_features_none _ Heng). reflexivity.
  - pose proof categorical_are_features as Hcat.
    rewrite Forall_forall in *. intros f Hf. apply Heng, Hcat, Hf.
Qed.

(** X11: a batch with none of the sixteen declared feature columns and no
    installation date is refused with NoUsableFeatures by [prepare_data],
    by [train], and by [predict] on a trained predictor, and the predictor
    is left exactly as it was. *)
Theorem no_usable_features (df : DataFrame) (rc : bool) (st : predictor) :
  Forall (fun f => df !! f = None) (numerical_features ++ categorical_features) ->
  df !! "installation_date" = None ->
  prepare_data df st = (st, Raise NoUsableFeatures)
  /\ train df st = (st, Raise NoUsableFeatures)
  /\ (is_trained st = true -> predict df rc st = (st, Raise NoUsableFeatures)).
Proof.
  intros Hnone Hdate.
  pose proof (prepare_data_no_features df st Hnone Hdate) as Hprep.
  split; [exact Hprep|]. split.
  - unfold train, mbind, M_bind. rewrite Hprep. reflexivity.
  - intros Htr. unfold predict, mbind, M_bind, get_self. cbn beta iota.
    rewrite Htr. cbn [negb]. rewrite Hprep. reflexivity.
Qed.

End NoFeatures.

Section DemoNoFeatures.
Import Demo.

Lemma no_usable_features_witness :
  prepare_data id_only_batch (trained 0.5 0.3)
  = (trained 0.5 0.3, Raise NoUsableFeatures)
  /\ train id_only_batch (trained 0.5 0.3) = (trained 0.5 0.3, Raise NoUsableFeatures)
  /\ (is_trained (trained 0.5 0.3) = true ->
      predict id_only_batch true (trained 0.5 0.3)
      = (trained 0.5 0.3, Raise NoUsableFeatures)).
Proof.
  apply (no_usable_features id_only_batch true (trained 0.5 0.3)).
  - apply (bool_decide_unpack _). vm_compute. exact I.
  - reflexivity.
Defined.

End DemoNoFeatures.

(** ** First exposure of a categorical column *)

Section FirstExposure.
Context `{Pandas, Clock, Sklearn}.
Import LabelEncoder.

(** Codes identify labels: two labels with the same code are the same. *)
Lemma index_of_injective (classes : list string) (x y : string) (i : nat) :
  index_of x classes = Some i -> index_of y classes = Some i -> x = y.
Proof.
  revert i. induction classes as [|c rest IH]; intros i; cbn; [discriminate|].
  destruct (decide (x = c)) as [->|Hx]; destruct (decide (y = c)) as [->|Hy].
  - reflexivity.
  - intros [= <-]. destruct (index_of y rest); discriminate.
  - destruct (index_of x rest); [|discriminate]. intros [= <-]. discriminate.
  - destruct (index_of x rest) as [j|] eqn:Hj; [|discriminate].
    destruct (index_of y rest) as [j'|] eqn:Hj'; [|discriminate].
    cbn. intros [= <-] [= ->]. exact (IH j eq_refl eq_refl).
Qed.

(** X12: the first time a categorical column meets a predictor without an
    encoder for it, the loop turn fits one on the column's labels, stores
    it, and cannot raise; the codes written back are the positions of the
    labels among the fitted classes, so equal codes mean equal labels; and
    from then on no turn of the loop for that attribute changes the
    predictor again, whatever the frame. *)
Theorem first_exposure_fits_once
    (feature : string) (col : list value) (d : DataFrame) (st : predictor) :
  label_encoders st !! feature = None ->
  d !! feature = Some col ->
  exists c st',
    encode_feature feature d st = (st', Ok (<[feature := codes c]> d))
    /\ label_encoders st'
       = <[feature := fit (map astype_str col)]> (label_encoders st)
    /\ same_models st st' /\ scaler st' = scaler st
    /\ Forall2 (fun v i => index_of (astype_str v) (fit (map astype_str col)) = Some i)
         col c
    /\ (forall x y i,
          index_of x (fit (map astype_str col)) = Some i ->
          index_of y (fit (map astype_str col)) = Some i -> x = y)
    /\ (forall d2, (encode_feature feature d2 st').1 = st').
Proof.
  intros Henc Hcol.
  destruct (fit_transform_Ok (map astype_str col)) as [c Hc].
  exists c. eexists. split; [|split; [|split; [|split; [|split; [|split]]]]].
  - unfold encode_feature. rewrite Hcol.
    unfold mbind, M_bind, get_self, set_label_encoder, lift, mret, M_ret.
    cbn beta iota. rewrite Henc. cbn beta iota. rewrite Hc. reflexivity.
  - reflexivity.
  - repeat split.
  - reflexivity.
  - apply transform_Ok in Hc. apply Forall2_fmap_l in Hc. exact Hc.
  - intros x y i. apply index_of_injective.
  - intros d2. unfold encode_feature.
    destruct (d2 !! feature) as [col2|]; [|reflexivity].
    unfold mbind, M_bind, get_self, lift, mret, M_ret. cbn beta iota.
    cbn [label_encoders]. rewrite lookup_insert_eq. cbn beta iota.
    destruct (encode_frozen _ _); reflexivity.
Qed.

End FirstExposure.

Section DemoFirstExposure.
Import Demo.
Import LabelEncoder.

Lemma first_exposure_witness :
  exists c st',
    encode_feature "material" hdpe_batch (trained 0.5 0.3)
    = (st', Ok (<["material" := codes c]> hdpe_batch))
    /\ label_encoders st'
       = <["material" := fit (map astype_str [VStr "HDPE"])]>
           (label_encoders (trained 0.5 0.3))
    /\ same_models (trained 0.5 0.3) st' /\ scaler st' = scaler (trained 0.5 0.3)
    /\ Forall2 (fun v i =>
                  index_of (astype_str v) (fit (map astype_str [VStr "HDPE"])) = Some i)
         [VStr "HDPE"] c
    /\ (forall x y i,
          index_of x (fit (map astype_str [VStr "HDPE"])) = Some i ->
          index_of y (fit (map astype_str [VStr "HDPE"])) = Some i -> x = y)
    /\ (forall d2, (encode_feature "material" d2 st').1 = st').
Proof.
  apply (first_exposure_fits_once "material" [VStr "HDPE"] hdpe_batch (trained 0.5 0.3)).
  - vm_compute. reflexivity.
  - reflexivity.
Defined.

End DemoFirstExposure.

(** ** Persistence *)

Section PersistenceFacts.
Context `{Pandas, Clock, Sklearn}.

(** X13: saving a trained predictor and loading the file into any predictor
    gives back the saved one, field for field, so that it predicts as the
    saved one does; saving touches no other path. *)
Theorem save_then_load_restores
    (filepath : string) (st other : predictor) (files : gmap string model_data) :
  is_trained st = true ->
  (save_model filepath st files).2 = Ok tt
  /\ load_model filepath (save_model filepath st files).1 other = (st, Ok tt)
  /\ (forall df rc,
        predict df rc (load_model filepath (save_model filepath st files).1 other).1
        = predict df rc st)
  /\ (forall path, path <> filepath ->
                   (save_model filepath st files).1 !! path = files !! path).
Proof.
  intros Htr.
  assert (Hload : load_model filepath (save_model filepath st files).1 other = (st, Ok tt)).
  { destruct st as [rf gb sc le fi tr]. cbn [is_trained] in Htr. subst tr.
    unfold save_model, load_model. cbn [is_trained negb fst].
    rewrite lookup_insert_eq. reflexivity. }
  split; [|split; [|split]].
  - unfold save_model. rewrite Htr. reflexivity.
  - exact Hload.
  - intros df rc. rewrite Hload. reflexivity.
  - intros path Hne. unfold save_model. rewrite Htr. cbn [negb fst].
    apply lookup_insert_ne. congruence.
Qed.

(** The persistence errors change nothing: saving an untrained predictor
    raises and writes no file; loading a path that does not exist raises
    and leaves the predictor as it was. *)
Lemma persistence_errors_change_nothing
    (filepath : string) (st : predictor) (files : gmap string model_data) :
  (is_trained st = false ->
   save_model filepath st files = (files, Raise ArtifactNotTrained))
  /\ (files !! filepath = None ->
      load_model filepath files st
      = (st, Raise (FileNotFoundError ("Model file not found: " +:+ filepath)))).
Proof.
  split.
  - intros Hu. unfold save_model. rewrite Hu. reflexivity.
  - intros Hnone. unfold load_model. rewrite Hnone. reflexivity.
Qed.

End PersistenceFacts.

Section DemoPersistence.
Import Demo.

Lemma save_then_load_witness :
  (save_model "model.joblib" (trained 0.5 0.3) ∅).2 = Ok tt
  /\ load_model "model.joblib" (save_model "model.joblib" (trained 0.5 0.3) ∅).1
       (fresh 1 1)
     = (trained 0.5 0.3, Ok tt)
  /\ (forall df rc,
        predict df rc
          (load_model "model.joblib"
             (save_model "model.joblib" (trained 0.5 0.3) ∅).1 (fresh 1 1)).1
        = predict df rc (trained 0.5 0.3))
  /\ (forall path, path <> "model.joblib" ->
                   (save_model "model.joblib" (trained 0.5 0.3) ∅).1 !! path
                   = (∅ : gmap string model_data) !! path).
Proof.
  apply (save_then_load_restores "model.joblib" (trained 0.5 0.3) (fresh 1 1) ∅).
  vm_compute. reflexivity.
Defined.

End DemoPersistence.

(** ** The API server *)

Section ServerFacts.
Context `{Pandas, Clock, Sklearn, !Estimators, Deployment}.

Lemma predict_keeps_flag (df : DataFrame) (rc : bool) (p : predictor) :
  is_trained (predict df rc p).1 = is_trained p.
Proof.
  rewrite predict_state. destruct (is_trained p) eqn:Htr; [|exact Htr].
  destruct (prepare_data df p) as [p' r] eqn:Hprep. cbn [fst].
  apply prepare_data_effect in Hprep as ((_ & _ & _ & Hflag) & _). congruence.
Qed.

Lemma predict_single_pipeline_keeps_flag (pipeline_data : Dict) (p : predictor) :
  is_trained (predict_single_pipeline pipeline_data p).1 = is_trained p.
Proof. rewrite predict_single_pipeline_state. apply predict_keeps_flag. Qed.

Lemma save_model_trained (filepath : string) (p : predictor)
    (fs : gmap string model_data) :
  is_trained p = true ->
  save_model filepath p fs = (<[filepath := dumped p]> fs, Ok tt).
Proof. intros Htr. unfold save_model, dumped. rewrite Htr. reflexivity. Qed.

Lemma train_Ok_trained (df : DataFrame) (p p' : predictor) (m : Scores * Scores) :
  train df p = (p', Ok m) -> is_trained p' = true.
Proof. intros Ht. apply train_effect in Ht as (_ & _ & Htr & _). exact Htr. Qed.

(** What [retrain_model] does, case by case. *)
Lemma retrain_endpoint_cases (fetched : option (list Dict)) (s : server) :
  (exists rows p m df,
      fetched = Some rows
      /\ with_synthetic_target (DataFrame_of_records rows) = Ok df
      /\ train df new_predictor = (p, Ok m)
      /\ is_trained p = true
      /\ retrain_endpoint fetched s
         = ({| global_predictor := Some p;
               model_loaded := true;
               files := <[MODEL_PATH := dumped p]> (files s) |},
            {| status := 200; payload := Retrained m |}))
  \/ (exists b, retrain_endpoint fetched s = (s, {| status := 400; payload := b |}))
  \/ (exists b, retrain_endpoint fetched s = (s, {| status := 500; payload := b |})).
Proof.
  unfold retrain_endpoint.
  destruct fetched as [[|row rows]|]; [right; left; eexists; reflexivity| |
                                       right; left; eexists; reflexivity].
  destruct (with_synthetic_target (DataFrame_of_records (row :: rows))) as [df|e] eqn:Hdf;
    [|right; right; eexists; reflexivity].
  destruct (train df new_predictor) as [p [m|e]] eqn:Ht;
    [|right; right; eexists; reflexivity].
  pose proof (train_Ok_trained _ _ _ _ Ht) as Htr.
  rewrite (save_model_trained _ _ _ Htr).
  left. exists (row :: rows), p, m, df.
  split; [reflexivity|]. split; [exact Hdf|]. split; [exact Ht|].
  split; [exact Htr | reflexivity].
Qed.

(** X14: a retraining request either publishes or changes nothing.  On
    status 200 the global predictor is a freshly constructed one trained on
    the fetched rows, it is trained, the flag is set and the model file
    holds it, other files untouched; on any other status the predictor, the
    flag and the files are exactly as before.  The outcome does not depend
    on the predictor that was serving. *)
Theorem retrain_publishes_or_changes_nothing
    (fetched : option (list Dict)) (s : server) :
  (status (retrain_endpoint fetched s).2 = 200 ->
   exists p,
     global_predictor (retrain_endpoint fetched s).1 = Some p
     /\ is_trained p = true
     /\ model_loaded (retrain_endpoint fetched s).1 = true
     /\ (exists rows df m,
           fetched = Some rows
           /\ with_synthetic_target (DataFrame_of_records rows) = Ok df
           /\ train df new_predictor = (p, Ok m))
     /\ files (retrain_endpoint fetched s).1 !! MODEL_PATH = Some (dumped p)
     /\ (forall path, path <> MODEL_PATH ->
                      files (retrain_endpoint fetched s).1 !! path = files s !! path))
  /\ (status (retrain_endpoint fetched s).2 <> 200 ->
      (retrain_endpoint fetched s).1 = s)
  /\ (forall s2,
        (retrain_endpoint fetched s2).2 = (retrain_endpoint fetched s).2
        /\ (status (retrain_endpoint fetched s).2 = 200 ->
            global_predictor (retrain_endpoint fetched s2).1
            = global_predictor (retrain_endpoint fetched s).1)).
Proof.
  split; [|split].
  - intros H200.
    destruct (retrain_endpoint_cases fetched s)
      as [(rows & p & m & df & Hf & Hdf & Ht & Htr & Hr)|[[b Hr]|[b Hr]]];
      rewrite Hr in *; [|discriminate..].
    exists p. cbn [fst global_predictor model_loaded files].
    split; [reflexivity|]. split; [exact Htr|]. split; [reflexivity|].
    split; [exists rows, df, m; repeat split; assumption|].
    split; [apply lookup_insert_eq|].
    intros path Hne. apply lookup_insert_ne. congruence.
  - intros Hnot.
    destruct (retrain_endpoint_cases fetched s)
      as [(rows & p & m & df & _ & _ & _ & _ & Hr)|[[b Hr]|[b Hr]]]; rewrite Hr in *;
      [exfalso; apply Hnot; reflexivity | reflexivity | reflexivity].
  - intros s2. unfold retrain_endpoint.
    destruct fetched as [[|row rows]|];
      [split; [reflexivity | intros [=]] | | split; [reflexivity | intros [=]]].
    destruct (with_synthetic_target (DataFrame_of_records (row :: rows))) as [df|e];
      [|split; [reflexivity | intros [=]]].
    destruct (train df new_predictor) as [p [m|e]] eqn:Ht;
      [|split; [reflexivity | intros [=]]].
    pose proof (train_Ok_trained _ _ _ _ Ht) as Htr.
    rewrite !(save_model_trained _ _ _ Htr). split; reflexivity.
Qed.

(** X15: the serving invariant (a server that says [model_loaded] holds a
    trained predictor, and every model file holds a trained model) is
    established by start-up and kept by every handler. *)
Theorem serving_invariant_preserved
    (request : result json) (pipeline_id : Z) (fetched : option (list Dict))
    (s : server) :
  serving_invariant s ->
  serving_invariant (startup s)
  /\ serving_invariant (predict_endpoint request s).1
  /\ serving_invariant (predict_pipeline_endpoint pipeline_id fetched s).1
  /\ serving_invariant (retrain_endpoint fetched s).1
  /\ serving_invariant (model_info_endpoint s).1
  /\ serving_invariant (batch_predict_endpoint fetched s).1.
Proof.
  intros Hs. pose proof Hs as [Hpub Hfiles].
  assert (Hkeep : forall p' : predictor,
             (model_loaded s = true -> is_trained p' = true) ->
             serving_invariant {| global_predictor := Some p';
                                  model_loaded := model_loaded s;
                                  files := files s |}).
  { intros p' Hp'. split; cbn [model_loaded global_predictor files];
      [intros Hl; exists p'; split; [reflexivity | exact (Hp' Hl)] | exact Hfiles]. }
  assert (Hserving : forall p, global_predictor s = Some p ->
                               model_loaded s = true -> is_trained p = true).
  { intros p Hp Hl. destruct (Hpub Hl) as [p0 [Hp0 Htr]]. congruence. }
  split; [|split; [|split; [|split; [|split]]]].
  - unfold startup.
    destruct (bool_decide (is_Some (files s !! MODEL_PATH))) eqn:Hex.
    + unfold load_model.
      destruct (files s !! MODEL_PATH) as [md|] eqn:Hmd.
      * split; cbn [model_loaded global_predictor files]; [|exact Hfiles].
        intros _. eexists. split; [reflexivity|]. cbn [is_trained].
        exact (Hfiles _ _ Hmd).
      * split; cbn [model_loaded global_predictor files]; [discriminate | exact Hfiles].
    + destruct (train create_sample_data new_predictor) as [p [m|e]] eqn:Ht.
      * pose proof (train_Ok_trained _ _ _ _ Ht) as Htr.
        rewrite (save_model_trained _ _ _ Htr).
        split; cbn [model_loaded global_predictor files].
        -- intros _. exists p. split; [reflexivity | exact Htr].
        -- intros path md Hmd.
           destruct (decide (MODEL_PATH = path)) as [<-|Hne].
           ++ rewrite lookup_insert_eq in Hmd. injection Hmd as <-. exact Htr.
           ++ rewrite lookup_insert_ne in Hmd by exact Hne. exact (Hfiles _ _ Hmd).
      * split; cbn [model_loaded global_predictor files]; [discriminate | exact Hfiles].
  - unfold predict_endpoint.
    destruct (model_loaded s) eqn:Hl; cbn [negb fst]; [|exact Hs].
    destruct request as [data|e]; [|exact Hs].
    destruct (falsy data); [exact Hs|].
    destruct (request_frame data) as [df|e]; [|exact Hs].
    destruct (global_predictor s) as [p|] eqn:Hp; [|exact Hs].
    pose proof (predict_keeps_flag df true p) as Hflag.
    destruct (predict _ true p) as [p' r]. cbn [fst] in *.
    apply Hkeep. intros HL. rewrite Hflag. apply Hserving; reflexivity.
  - unfold predict_pipeline_endpoint.
    destruct (model_loaded s) eqn:Hl; cbn [negb fst]; [|exact Hs].
    destruct fetched as [[|row rows]|]; [exact Hs | | exact Hs].
    destruct (global_predictor s) as [p|] eqn:Hp; [|exact Hs].
    pose proof (predict_single_pipeline_keeps_flag row p) as Hflag.
    destruct (predict_single_pipeline row p) as [p' r]. cbn [fst] in *.
    apply Hkeep. intros HL. rewrite Hflag. apply Hserving; reflexivity.
  - destruct (retrain_endpoint_cases fetched s)
      as [(rows & p & m & df & _ & _ & _ & Htr & ->)|[[b ->]|[b ->]]];
      cbn [fst]; [|exact Hs..].
    split; cbn [model_loaded global_predictor files].
    + intros _. exists p. split; [reflexivity | exact Htr].
    + intros path md Hmd.
      destruct (decide (MODEL_PATH = path)) as [<-|Hne].
      * rewrite lookup_insert_eq in Hmd. injection Hmd as <-. exact Htr.
      * rewrite lookup_insert_ne in Hmd by exact Hne. exact (Hfiles _ _ Hmd).
  - unfold model_info_endpoint.
    destruct (negb (model_loaded s)); [exact Hs|].
    destruct (global_predictor s); exact Hs.
  - unfold batch_predict_endpoint.
    destruct (model_loaded s) eqn:Hl; cbn [negb fst]; [|exact Hs].
    destruct fetched as [[|row rows]|]; [exact Hs | | exact Hs].
    destruct (global_predictor s) as [p|] eqn:Hp; [|exact Hs].
    pose proof (predict_keeps_flag (DataFrame_of_records (row :: rows)) true p) as Hflag.
    destruct (predict _ true p) as [p' r]. cbn [fst] in *.
    apply Hkeep. intros HL. rewrite Hflag. apply Hserving; reflexivity.
Qed.

(** X16: start-up restores or trains ([joblib] being a store that returns
    what was dumped).  When the model file holds what [save_model] dumped
    for a predictor, the server comes up serving that very predictor,
    loaded, with the files untouched and without training.  When there is
    no model file, the server trains a fresh predictor on the sample data
    and holds it whatever the outcome; it can be loaded only when that
    training returned, and then the model file holds the dump of the
    trained predictor; when the training raises, the server is not loaded
    and no file is written.  No other file is touched. *)
Theorem startup_restores_or_trains (s : server) :
  (forall p, files s !! MODEL_PATH = Some (dumped p) ->
             startup s = {| global_predictor := Some p;
                            model_loaded := true;
                            files := files s |})
  /\ (files s !! MODEL_PATH = None ->
      global_predictor (startup s) = Some (train create_sample_data new_predictor).1
      /\ (model_loaded (startup s) = true ->
          (exists m, (train create_sample_data new_predictor).2 = Ok m)
          /\ is_trained (train create_sample_data new_predictor).1 = true
          /\ files (startup s) !! MODEL_PATH
             = Some (dumped (train create_sample_data new_predictor).1))
      /\ (forall e, (train create_sample_data new_predictor).2 = Raise e ->
          model_loaded (startup s) = false /\ files (startup s) = files s))
  /\ (forall path, path <> MODEL_PATH -> files (startup s) !! path = files s !! path).
Proof.
  split; [|split].
  - intros p Hp. unfold startup, load_model. rewrite Hp.
    rewrite bool_decide_eq_true_2 by eauto.
    destruct p. reflexivity.
  - intros Hnone. unfold startup. rewrite Hnone.
    rewrite bool_decide_eq_false_2 by (intros [? ?]; discriminate).
    destruct (train create_sample_data new_predictor) as [p [m|e]] eqn:Ht; cbn [fst snd].
    + pose proof (train_Ok_trained _ _ _ _ Ht) as Htr.
      rewrite (save_model_trained _ _ _ Htr).
      cbn [global_predictor model_loaded files].
      split; [reflexivity|]. split.
      * intros _. split; [exists m; reflexivity|]. split; [exact Htr|].
        apply lookup_insert_eq.
      * intros e [=].
    + cbn [global_predictor model_loaded files].
      split; [reflexivity|]. split; [discriminate|].
      intros _ _. split; reflexivity.
  - intros path Hne. unfold startup.
    destruct (bool_decide (is_Some (files s !! MODEL_PATH))).
    + destruct (load_model MODEL_PATH (files s) new_predictor) as [p r]. reflexivity.
    + destruct (train create_sample_data new_predictor) as [p [m|e]] eqn:Ht;
        [|reflexivity].
      pose proof (train_Ok_trained _ _ _ _ Ht) as Htr.
      rewrite (save_model_trained _ _ _ Htr). cbn [files].
      apply lookup_insert_ne. congruence.
Qed.

(** Closing one branch of a handler: every statement about the status is
    decided by the equations of the branch. *)
Ltac close_leaf :=
  cbn [fst snd status payload model_loaded files global_predictor];
  repeat split; intros;
  repeat match goal with
    | H : _ /\ _ |- _ => destruct H
    | H : exists _, _ |- _ => destruct H
    | H : _ \/ _ |- _ => destruct H
    end;
  simplify_eq;
  try discriminate; try congruence; auto;
  try match goal with
    | E : ?t = _, H : context [?t] |- _ =>
        rewrite E in H; cbn [fst snd] in H; discriminate
    end;
  try (eexists; split; [reflexivity | assumption]);
  try (do 3 eexists; repeat split;
       first [reflexivity | eassumption
             | match goal with E : ?t = _ |- context [?t] => rewrite E; reflexivity end]).

(** The bodies that [not data] rejects. *)
Lemma falsy_bodies (data : json) :
  falsy data = true
  <-> data = JNull \/ data = JBool false \/ data = JNumber 0%R
      \/ data = JString "" \/ data = JArray [] \/ data = JObject ∅.
Proof.
  split.
  - destruct data as [|[]|x|str|items|members]; cbn [falsy negb];
      try discriminate; try rewrite bool_decide_eq_true; intros Hd;
      try (rewrite Hd); tauto.
  - intros [->|[->|[->|[->|[->| ->]]]]]; cbn [falsy negb];
      try reflexivity; apply bool_decide_eq_true_2; reflexivity.
Qed.

(** The frame of an object of cells, and of an array of such objects. *)
Lemma request_frame_object (members : gmap string json) (d : Dict) :
  record_of_json (JObject members) = Some d ->
  request_frame (JObject members) = Ok (DataFrame_of_records [d]).
Proof.
  intros Hd. unfold request_frame.
  change (mapM record_of_json [JObject members])
    with (d' ← record_of_json (JObject members); Some [d']).
  rewrite Hd. reflexivity.
Qed.

Lemma request_frame_array (items : list json) (rows : list Dict) :
  mapM record_of_json items = Some rows ->
  request_frame (JArray items) = Ok (DataFrame_of_records rows).
Proof. intros Hrows. unfold request_frame. rewrite Hrows. reflexivity. Qed.

(** The branches of [POST /predict], one status each. *)
Lemma predict_endpoint_cases (request : result json) (s : server) :
  (status (predict_endpoint request s).2 = 503 <-> model_loaded s = false)
  /\ (status (predict_endpoint request s).2 = 400
      <-> model_loaded s = true
          /\ exists data, request = Ok data /\ falsy data = true)
  /\ (status (predict_endpoint request s).2 = 200
      <-> model_loaded s = true
          /\ exists data df p res,
              request = Ok data /\ falsy data = false
              /\ request_frame data = Ok df
              /\ global_predictor s = Some p
              /\ (predict df true p).2 = Ok res
              /\ payload (predict_endpoint request s).2 = Predictions res)
  /\ (status (predict_endpoint request s).2 = 200
      \/ status (predict_endpoint request s).2 = 400
      \/ status (predict_endpoint request s).2 = 500
      \/ status (predict_endpoint request s).2 = 503)
  /\ model_loaded (predict_endpoint request s).1 = model_loaded s
  /\ files (predict_endpoint request s).1 = files s
  /\ (status (predict_endpoint request s).2 = 503
      \/ status (predict_endpoint request s).2 = 400 ->
      (predict_endpoint request s).1 = s).
Proof.
  unfold predict_endpoint.
  destruct (model_loaded s) eqn:Hl; cbn [negb]; [|close_leaf].
  destruct request as [data|e]; [|close_leaf].
  destruct (falsy data) eqn:Hfalsy; [close_leaf|].
  destruct (request_frame data) as [df|e] eqn:Hframe; [|close_leaf].
  destruct (global_predictor s) as [p|] eqn:Hp; [|close_leaf].
  destruct (predict df true p) as [p' [res|e]] eqn:Hpred.
  - close_leaf.
    exists data, df, p, res. rewrite Hpred. repeat split; assumption.
  - close_leaf.
Qed.

(** X17: the status of [POST /predict].  503 exactly when the model is
    not loaded; 400 exactly when it is loaded and the body is falsy in
    Python (null, false, zero, the empty string, array or object); 200
    exactly when it is loaded, the body is not falsy, pandas builds a frame
    from it and [predict] returns on that frame, and then the payload is
    that result; 500 otherwise.  The flag and the files never change, and a
    503 or 400 leaves the whole state alone. *)
Theorem predict_endpoint_status (request : result json) (s : server) :
  (status (predict_endpoint request s).2 = 503 <-> model_loaded s = false)
  /\ (status (predict_endpoint request s).2 = 400
      <-> model_loaded s = true
          /\ exists data,
              request = Ok data
              /\ (data = JNull \/ data = JBool false \/ data = JNumber 0%R
                  \/ data = JString "" \/ data = JArray [] \/ data = JObject ∅))
  /\ (status (predict_endpoint request s).2 = 200
      <-> model_loaded s = true
          /\ exists data df p res,
              request = Ok data /\ falsy data = false
              /\ request_frame data = Ok df
              /\ global_predictor s = Some p
              /\ (predict df true p).2 = Ok res
              /\ payload (predict_endpoint request s).2 = Predictions res)
  /\ (status (predict_endpoint request s).2 = 200
      \/ status (predict_endpoint request s).2 = 400
      \/ status (predict_endpoint request s).2 = 500
      \/ status (predict_endpoint request s).2 = 503)
  /\ model_loaded (predict_endpoint request s).1 = model_loaded s
  /\ files (predict_endpoint request s).1 = files s
  /\ (status (predict_endpoint request s).2 = 503
      \/ status (predict_endpoint request s).2 = 400 ->
      (predict_endpoint request s).1 = s).
Proof.
  destruct (predict_endpoint_cases request s) as (H503 & H400 & Hrest).
  split; [exact H503|]. split; [|exact Hrest].
  rewrite H400. split.
  - intros [Hl [data [Hreq Hf]]]. split; [exact Hl|].
    exists data. split; [exact Hreq | apply falsy_bodies, Hf].
  - intros [Hl [data [Hreq Hf]]]. split; [exact Hl|].
    exists data. split; [exact Hreq | apply falsy_bodies, Hf].
Qed.

(** X18: under the serving invariant [GET /model/info] cannot fail: it
    answers 200 with the importances of the serving predictor when the model
    is loaded, 503 otherwise, and changes nothing. *)
Theorem model_info_cannot_fail (s : server) :
  serving_invariant s ->
  (model_info_endpoint s).1 = s
  /\ (model_loaded s = false -> status (model_info_endpoint s).2 = 503)
  /\ (model_loaded s = true ->
      exists p, global_predictor s = Some p
                /\ (model_info_endpoint s).2
                   = {| status := 200;
                        payload := ModelInfo (feature_importance p)
                                     ["random_forest"; "gradient_boosting"] |}).
Proof.
  intros [Hpub _]. unfold model_info_endpoint.
  destruct (model_loaded s) eqn:Hl; cbn [negb].
  - destruct (Hpub eq_refl) as [p [Hp Htr]]. rewrite Hp.
    unfold get_feature_importance. rewrite Htr. cbn [negb fst snd].
    split; [reflexivity|]. split; [discriminate|]. intros _. exists p.
    split; reflexivity.
  - cbn [fst snd status]. split; [reflexivity|]. split; [reflexivity | discriminate].
Qed.

(** X19: the status of [POST /predict/pipeline/<id>].  404 exactly when
    the model is loaded and no row was fetched; on 200 the payload is the
    single-asset prediction of the first fetched row; the flag and the
    files never change. *)
Theorem predict_pipeline_endpoint_status
    (pipeline_id : Z) (fetched : option (list Dict)) (s : server) :
  (status (predict_pipeline_endpoint pipeline_id fetched s).2 = 503
   <-> model_loaded s = false)
  /\ (status (predict_pipeline_endpoint pipeline_id fetched s).2 = 404
      <-> model_loaded s = true /\ (fetched = None \/ fetched = Some []))
  /\ (status (predict_pipeline_endpoint pipeline_id fetched s).2 = 200
      <-> model_loaded s = true
          /\ exists row rows p res,
              fetched = Some (row :: rows)
              /\ global_predictor s = Some p
              /\ (predict_single_pipeline row p).2 = Ok res
              /\ payload (predict_pipeline_endpoint pipeline_id fetched s).2
                 = PipelinePrediction res)
  /\ model_loaded (predict_pipeline_endpoint pipeline_id fetched s).1 = model_loaded s
  /\ files (predict_pipeline_endpoint pipeline_id fetched s).1 = files s.
Proof.
  unfold predict_pipeline_endpoint.
  destruct (model_loaded s) eqn:Hl; cbn [negb]; [|close_leaf].
  destruct fetched as [[|row rows]|]; [close_leaf | | close_leaf].
  destruct (global_predictor s) as [p|] eqn:Hp; [|close_leaf].
  destruct (predict_single_pipeline row p) as [p' [res|e]] eqn:Hpred.
  - close_leaf.
    exists row, rows, p, res. rewrite Hpred. repeat split; reflexivity.
  - close_leaf.
Qed.

(** [mapM] in the exception monad returns when every element does. *)
Lemma mapM_result_Ok {A B} (f : A -> result B) (l : list A) (k : list B) :
  mapM f l = Ok k -> Forall2 (fun x y => f x = Ok y) l k.
Proof.
  revert k. induction l as [|x l IH]; intros k.
  - intros [= <-]. constructor.
  - rewrite mapM_result_cons.
    destruct (f x) as [y|e] eqn:Hx; [|discriminate].
    destruct (mapM f l) as [k'|e]; [|discriminate].
    intros [= <-]. constructor; [exact Hx | apply IH; reflexivity].
Qed.

Lemma batch_entry_Ok (results : prediction) (i : nat) (pipeline : Dict)
    (e : batch_prediction) :
  batch_entry results i pipeline = Ok e ->
  pipeline !! "id" = Some (bp_pipeline_id e)
  /\ pipeline !! "name" = Some (bp_pipeline_name e)
  /\ failure_probability results !! i = Some (bp_failure_probability e)
  /\ bp_risk_level e = _get_risk_level (bp_failure_probability e)
  /\ (bp_confidence_score e = 0.8%R
      \/ exists cs, confidence_score results = Some cs
                    /\ cs !! i = Some (bp_confidence_score e)).
Proof.
  unfold batch_entry, getitem, item, mbind, result_bind.
  destruct (pipeline !! "id") as [id|]; [|discriminate].
  destruct (pipeline !! "name") as [name|]; [|discriminate].
  destruct (failure_probability results !! i) as [p|]; [|discriminate].
  destruct (confidence_score results) as [[|c0 cs]|].
  - intros [= <-]. cbn. repeat split; auto.
  - destruct ((c0 :: cs) !! i) as [c|] eqn:Hc; [|discriminate].
    intros [= <-]. cbn. repeat split. right. eauto.
  - intros [= <-]. cbn. repeat split; auto.
Qed.

(** X20: [POST /batch/predict] answers 200 only when every fetched row has
    an id and a name and the batch prediction holds a probability for every
    row; the payload then has one entry per row, in order, carrying the
    row's id and name, the row's probability, its risk level by the same
    thresholds as single-asset inference, and a confidence in [0.1, 1.0]. *)
Theorem batch_predict_one_entry_per_row (fetched : option (list Dict)) (s : server) :
  status (batch_predict_endpoint fetched s).2 = 200 ->
  exists rows p results l,
    fetched = Some rows
    /\ global_predictor s = Some p
    /\ (predict (DataFrame_of_records rows) true p).2 = Ok results
    /\ payload (batch_predict_endpoint fetched s).2 = BatchPredictions l (length rows)
    /\ length l = length rows
    /\ forall i row, rows !! i = Some row ->
         exists e, l !! i = Some e
                   /\ row !! "id" = Some (bp_pipeline_id e)
                   /\ row !! "name" = Some (bp_pipeline_name e)
                   /\ failure_probability results !! i = Some (bp_failure_probability e)
                   /\ bp_risk_level e = _get_risk_level (bp_failure_probability e)
                   /\ (0.1 <= bp_confidence_score e <= 1.0)%R.
Proof.
  unfold batch_predict_endpoint.
  destruct (model_loaded s); cbn [negb]; [|discriminate].
  destruct fetched as [[|row0 rows0]|]; [discriminate| |discriminate].
  set (rows := row0 :: rows0).
  destruct (global_predictor s) as [p|]; [|discriminate].
  destruct (predict (DataFrame_of_records rows) true p) as [p' [results|e]] eqn:Hpred;
    [|discriminate].
  unfold mbind, result_bind.
  destruct (mapM _ _) as [l|e] eqn:Hmap; [|discriminate].
  intros _. cbn [fst snd payload].
  apply mapM_result_Ok in Hmap.
  assert (Hlen : length l = length rows).
  { apply Forall2_length in Hmap. rewrite length_imap in Hmap. symmetry. exact Hmap. }
  exists rows, p, results, l.
  split; [reflexivity|]. split; [reflexivity|].
  split; [rewrite Hpred; reflexivity|].
  split; [rewrite Hlen; reflexivity|]. split; [exact Hlen|].
  intros i row Hrow.
  assert (Hi : imap (fun i pipeline => (i, pipeline)) rows !! i = Some (i, row)).
  { rewrite list_lookup_imap, Hrow. reflexivity. }
  destruct (Forall2_lookup_l _ _ _ _ _ Hmap Hi) as [e [He Hentry]].
  cbn beta iota in Hentry.
  apply batch_entry_Ok in Hentry as (Hid & Hname & Hp & Hrisk & Hconf).
  exists e. repeat split; try assumption.
  - destruct Hconf as [->|[cs [Hcs Hc]]]; [lra|].
    destruct (predict_returns _ _ _ _ _ Hpred) as [_ Hconf].
    rewrite Hcs in Hconf. injection Hconf as ->.
    pose proof (confidence_bounds (individual_predictions results).1
                  (individual_predictions results).2) as Hb.
    rewrite Forall_forall in Hb. apply Hb.
    apply list_elem_of_lookup. eauto.
  - destruct Hconf as [->|[cs [Hcs Hc]]]; [lra|].
    destruct (predict_returns _ _ _ _ _ Hpred) as [_ Hconf].
    rewrite Hcs in Hconf. injection Hconf as ->.
    pose proof (confidence_bounds (individual_predictions results).1
                  (individual_predictions results).2) as Hb.
    rewrite Forall_forall in Hb. apply Hb.
    apply list_elem_of_lookup. eauto.
Qed.

End ServerFacts.

Section DemoServerRuns.
Import Demo.
Import DemoServer.

Lemma warm_serving_invariant : serving_invariant warm.
Proof.
  split.
  - intros _. exists (trained 0.5 0.3). split; [reflexivity | vm_compute; reflexivity].
  - intros path md Hmd. cbn [files warm] in Hmd. rewrite lookup_empty in Hmd. discriminate.
Qed.

Lemma serving_invariant_witness :
  serving_invariant (startup warm)
  /\ serving_invariant (retrain_endpoint (Some fetched_rows) warm).1
  /\ serving_invariant (batch_predict_endpoint (Some fetched_rows) warm).1.
Proof.
  destruct (serving_invariant_preserved (Ok JNull) 1 (Some fetched_rows) warm
              warm_serving_invariant)
    as (Hstart & _ & _ & Hretrain & _ & Hbatch).
  split; [exact Hstart|]. split; [exact Hretrain | exact Hbatch].
Defined.

Lemma model_info_witness :
  (model_info_endpoint warm).1 = warm
  /\ exists p, global_predictor warm = Some p
               /\ (model_info_endpoint warm).2
                  = {| status := 200;
                       payload := ModelInfo (feature_importance p)
                                    ["random_forest"; "gradient_boosting"] |}.
Proof.
  destruct (model_info_cannot_fail warm warm_serving_invariant) as (Hsame & _ & Hinfo).
  split; [exact Hsame | apply Hinfo; reflexivity].
Defined.

Lemma batch_predict_witness :
  exists l,
    payload (batch_predict_endpoint (Some fetched_rows) warm).2 = BatchPredictions l 2
    /\ length l = 2.
Proof.
  destruct (batch_predict_one_entry_per_row (Some fetched_rows) warm)
    as (rows & p & results & l & Hf & _ & _ & Hpayload & Hlen & _).
  { vm_compute. reflexivity. }
  injection Hf as <-. exists l. split; [exact Hpayload | exact Hlen].
Defined.

(** The demo server comes up loaded from a cold start, and a retraining
    request on the fetched rows is answered with 200. *)
Example cold_start_trains : model_loaded (startup cold) = true.
Proof. vm_compute. reflexivity. Qed.

Example retrain_on_fetched_rows :
  status (retrain_endpoint (Some fetched_rows) warm).2 = 200.
Proof. vm_compute. reflexivity. Qed.

(** The bodies [0] and [false] are answered with 400, as [null] is; an
    object with an age is answered with 200, and the body [true], whose
    frame has no feature column, with 500. *)
Example falsy_bodies_are_rejected :
  status (predict_endpoint (Ok (JNumber 0)) warm).2 = 400
  /\ status (predict_endpoint (Ok (JBool false)) warm).2 = 400
  /\ status (predict_endpoint (Ok JNull) warm).2 = 400.
Proof.
  refine (conj _ (conj _ _)); [|reflexivity..].
  unfold predict_endpoint. cbn [model_loaded warm negb falsy].
  rewrite bool_decide_eq_true_2 by reflexivity. reflexivity.
Qed.

Example object_body_is_served :
  status (predict_endpoint (Ok (JObject {[ "age_years" := JNumber 31 ]})) warm).2 = 200.
Proof. vm_compute. reflexivity. Qed.

Example scalar_body_fails :
  status (predict_endpoint (Ok (JBool true)) warm).2 = 500.
Proof. vm_compute. reflexivity. Qed.

End DemoServerRuns.

(** ** The horizon of the estimated failure date *)

Section Horizon.
Context `{Clock}.
Local Open Scope R_scope.

(** X21: whenever [_estimate_failure_date] yields a date, the probability
    is at least 0.3 and the date is that of now plus between 0.28 and 7
    years of 365 days: never in the past, never further away than seven
    years. *)
Theorem failure_date_within_seven_years
    (p : R) (pipeline_data : Dict) (d : string) :
  _estimate_failure_date p pipeline_data = Ok (Some d) ->
  0.3 <= p
  /\ exists years,
      d = date_isoformat (datetime_now + years * 365)
      /\ 0.28 <= years <= 7.
Proof.
  unfold _estimate_failure_date.
  destruct (decide (p < 0.3)) as [Hlow|Hhigh]; [discriminate|].
  unfold mbind, result_bind.
  destruct (gt (get_or_zero pipeline_data "age_years") 25) as [old|]; [|discriminate].
  destruct (gt (get_or_zero pipeline_data "corrosion_rate") 0.1) as [corroding|];
    [|discriminate].
  intros [= <-]. split; [lra|].
  exists (estimated_years p old corroding). split; [reflexivity|].
  unfold estimated_years, py_max.
  destruct (decide (0.5 < (1 - p) * 10)); destruct old; destruct corroding; lra.
Qed.

End Horizon.

Section DemoHorizon.
Import Demo.
Local Open Scope R_scope.

Lemma failure_date_within_seven_years_witness :
  0.3 <= 0.5
  /\ exists years,
      "1970-01-01" = date_isoformat (datetime_now + years * 365)
      /\ 0.28 <= years <= 7.
Proof.
  apply (failure_date_within_seven_years 0.5 old_corroding_pipeline "1970-01-01").
  assert (Hage : numeric_or_absent old_corroding_pipeline "age_years") by exact I.
  assert (Hcorr : numeric_or_absent old_corroding_pipeline "corrosion_rate") by exact I.
  unfold _estimate_failure_date.
  destruct (decide (0.5 < 0.3)) as [Hlow|_]; [lra|].
  rewrite (gt_number _ _ _ Hage), (gt_number _ _ _ Hcorr). reflexivity.
Defined.

End DemoHorizon.
